(** * GEES2Downloader: tiling, fetching and assembling a raster band

    A shallow embedding of [src/geeS2downloader/common.py] and
    [src/geeS2downloader/gee.py], followed by the properties of the tiler,
    the size estimators, the streaming reader, the archive reader, the
    geometry helper and the band downloader.

    Conventions of the embedding:
    - Python [int] is [Z]; Python [float] is a binary64 [float] (the kernel's
      primitive floats, with the specification of their operations in
      [SpecFloat]);
    - a call that may raise returns an [outcome]; code that mutates the
      downloader or writes to the console runs in the state monad [M];
    - the collaborators (Earth Engine, requests, zipfile, rasterio, geojson)
      are values of the record [World] or section variables;
    - loops that the source does not bound take a [fuel : nat], and
      [OutOfFuel] is the outcome of a run that did not finish within it. *)

From Stdlib Require Import ZArith List String Bool Lia QArith Floats.
From Stdlib Require Import DecimalString.
From stdpp Require Import gmap.
Import ListNotations.

Local Open Scope Z_scope.

(* ===================================================================== *)
(** * Part I: the model *)
(* ===================================================================== *)

(** ** The Python runtime the code relies on *)

Module Py.

Inductive exn : Type :=
| ValueError (msg : string)
| ZeroDivisionError
| OverflowError
| AttributeError (msg : string)
| IndexError
| KeyError (key : string)
| TypeError (msg : string)
| External (name : string).

Inductive outcome (A : Type) : Type :=
| Return (a : A)
| Raise (e : exn)
| OutOfFuel.

Arguments Return {A} a.
Arguments Raise {A} e.
Arguments OutOfFuel {A}.

Definition obind {A B : Type} (o : outcome A) (k : A -> outcome B) : outcome B :=
  match o with
  | Return a => k a
  | Raise e => Raise e
  | OutOfFuel => OutOfFuel
  end.

(** State and exceptions: a computation gets the state and gives an outcome
    together with the state it left behind (also when it raised). *)
Definition M (S A : Type) : Type := S -> outcome A * S.

Definition ret {S A : Type} (a : A) : M S A := fun s => (Return a, s).

Definition bind {S A B : Type} (m : M S A) (k : A -> M S B) : M S B :=
  fun s =>
    match m s with
    | (Return a, s') => k a s'
    | (Raise e, s') => (Raise e, s')
    | (OutOfFuel, s') => (OutOfFuel, s')
    end.

Definition raise {S A : Type} (e : exn) : M S A := fun s => (Raise e, s).
Definition get_state {S : Type} : M S S := fun s => (Return s, s).
Definition modify {S : Type} (f : S -> S) : M S unit := fun s => (Return tt, f s).
Definition lift {S A : Type} (o : outcome A) : M S A := fun s => (o, s).

(** [float(z)]: the binary64 nearest to the integer [z]. *)
Definition float_of_int (z : Z) : float :=
  SF2Prim (binary_normalize prec emax z 0 false).

(** An int as an unrounded binary float: significand [|z|], exponent 0. *)
Definition exact_of_int (z : Z) : spec_float :=
  match z with
  | 0 => S754_zero false
  | Z.pos p => S754_finite false p 0
  | Z.neg p => S754_finite true p 0
  end.

(** [a / b] on two ints (true division): the exact quotient rounded once to
    binary64, whatever the size of the ints; a quotient beyond the range of
    binary64 raises. *)
Definition true_div (a b : Z) : outcome float :=
  if b =? 0 then Raise ZeroDivisionError
  else
    match SFdiv prec emax (exact_of_int a) (exact_of_int b) with
    | S754_infinity _ => Raise OverflowError
    | q => Return (SF2Prim q)
    end.

(** [math.sqrt]. *)
Definition math_sqrt (x : float) : outcome float :=
  if (x <? 0)%float then Raise (ValueError "math domain error")
  else Return (PrimFloat.sqrt x).

(** [math.log2] raises on an int that is not positive; on a positive one it
    is the C library's [log2], a parameter here. *)
Definition math_log2 (libm_log2 : float -> float) (z : Z) : outcome float :=
  if z <=? 0 then Raise (ValueError "math domain error")
  else Return (libm_log2 (float_of_int z)).

(** [int(x)] on a float: truncation toward zero. *)
Definition int (x : float) : outcome Z :=
  match Prim2SF x with
  | S754_zero _ => Return 0
  | S754_finite s m e =>
      let v := if 0 <=? e then Z.pos m * 2 ^ e else Z.pos m / 2 ^ (- e) in
      Return (if s then - v else v)
  | S754_infinity _ => Raise OverflowError
  | S754_nan => Raise (ValueError "cannot convert float NaN to integer")
  end.

(** [str(z)] on an int. *)
Definition str (z : Z) : string := NilZero.string_of_int (Z.to_int z).

End Py.

Import Py.

Declare Scope py_scope.
Delimit Scope py_scope with py.
Notation "x <- m ;; k" := (bind m (fun x => k))
  (at level 100, m at next level, right associativity) : py_scope.
Notation "m ;;; k" := (bind m (fun _ => k))
  (at level 100, right associativity) : py_scope.
Notation "x <~ o ;; k" := (obind o (fun x => k))
  (at level 100, o at next level, right associativity) : py_scope.

Local Open Scope py_scope.

(** ** Data shared by the two source files *)

Definition bytes : Type := list Byte.byte.

(** A Python [slice(start, stop)]. *)
Record slice : Type := { start : Z; stop : Z }.

(** What the code writes to the console or to a logger, the round trips to
    Earth Engine ([getInfo]) and the tasks handed to the thread pool. *)
Inductive event : Type :=
| Print (msg : string)
| LogWarning (msg : string)
| LogError (msg : string)
| GetInfo (what : string)
| Submit (region : slice * slice).

Definition emit {S : Type} (e : event) : M (S * list event) unit :=
  modify (fun s => (fst s, snd s ++ [e])).

(** [band_info]: the entry of the image property ['system:bands'] for one
    band, with the key ['nominal_scale'] that [download] adds. The keys that
    the code reads without a test (['dimensions'], ['data_type'] with its
    ['min'] and ['max'], ['crs'], ['crs_transform']) are fields: a band
    without one of them (a band of floats has no ['min'] and ['max']) makes
    the lookup raise [KeyError] and is left out of the model. *)
Record DataType : Type := { dt_min : Z; dt_max : Z }.

Record BandInfo : Type := {
  dimensions : Z * Z;
  data_type : DataType;
  crs : string;
  crs_transform : list float;
  nominal_scale : option float
}.

(** An [ee.Image], as far as the code looks into it: its bands in order,
    each with its ['system:bands'] entry and the nominal scale of its
    projection. *)
Module ee.

Record Band : Type := { name : string; info : BandInfo; scale : float }.
Definition Image : Type := list Band.

(** [img.bandNames().contains(band).getInfo()] *)
Definition bandNames_contains (img : Image) (band : string) : bool :=
  existsb (String.eqb band) (map name img).

(** [img.select(band)] *)
Definition select (img : Image) (band : string) : Image :=
  List.filter (fun b => String.eqb band (name b)) img.

(** [img.get('system:bands').getInfo()[band]] *)
Definition system_bands (img : Image) (band : string) : outcome BandInfo :=
  match List.find (fun b => String.eqb band (name b)) img with
  | Some b => Return (info b)
  | None => Raise (KeyError band)
  end.

(** [img.projection().nominalScale().getInfo()]: the bands of the image must
    share one projection; the code asks it of an image of one band. *)
Definition projection_nominalScale (img : Image) : outcome float :=
  match img with
  | [b] => Return (scale b)
  | _ => Raise (External "EEException")
  end.

End ee.

(** A decoded pixel block, and a numpy array of two dimensions and of type
    int16: its shape and the value at each index. *)
Definition block : Type := Z -> Z -> Z.

Module np.

Record ndarray : Type := { shape : Z * Z; item : Z -> Z -> Z }.

(** [np.zeros(dims).astype('int16')] *)
Definition zeros (dims : Z * Z) : ndarray := {| shape := dims; item := fun _ _ => 0 |}.

(** The value an int16 array keeps of an integer. *)
Definition int16 (v : Z) : Z := (v + 32768) mod 65536 - 32768.

Definition in_slice (s : slice) (dim k : Z) : bool :=
  (start s <=? k) && (k <? stop s) && (0 <=? k) && (k <? dim).

(** [a[sy, sx] = b], for slices with [0 <= start] and a block of the shape
    of the slices. *)
Definition setitem (a : ndarray) (sl : slice * slice) (b : block) : ndarray :=
  {| shape := shape a;
     item := fun y x =>
       if in_slice (fst sl) (fst (shape a)) y && in_slice (snd sl) (snd (shape a)) x
       then int16 (b (y - start (fst sl)) (x - start (snd sl)))
       else item a y x |}.

(** The value a uint8 array keeps of an integer, and [a[sy, sx] = v] for an
    integer [v] on such an array. *)
Definition uint8 (v : Z) : Z := v mod 256.

Definition fill_uint8 (a : ndarray) (sl : slice * slice) (v : Z) : ndarray :=
  {| shape := shape a;
     item := fun y x =>
       if in_slice (fst sl) (fst (shape a)) y && in_slice (snd sl) (snd (shape a)) x
       then uint8 v
       else item a y x |}.

End np.

(** A [tqdm] progress bar: the counter [n] and the [total] it was made with. *)
Module tqdm.
Record t : Type := { n : Z; total : Z }.
Definition update (k : Z) (p : t) : t := {| n := n p + k; total := total p |}.
End tqdm.

(** A [requests] session (or the module [requests] itself): [get] stands for
    [session.get(url, stream=True)] followed by [iter_content(chunk_size)],
    and gives the chunks of the body in order. *)
Module requests.
Record Session : Type := { get : string -> Z -> outcome (list bytes) }.
End requests.

(** A [zipfile.ZipFile]: its [filelist] and its method [read]. *)
Module zipfile.
Record ZipInfo : Type := { filename : string; header_offset : Z }.
Record ZipFile : Type := { filelist : list ZipInfo; read : ZipInfo -> outcome bytes }.
End zipfile.

(** A rasterio dataset: [read(out_shape)] gives a block of that shape. *)
Module rasterio.
Record DatasetReader : Type := { read : option (Z * Z) -> outcome block }.
End rasterio.

(** [concurrent.futures.ThreadPoolExecutor(max_workers=n)] for an int [n]:
    the constructor refuses a pool without workers. The tasks submitted to
    the pool are the [Future]s of [GEES2Downloader] below. *)
Module futures.
Definition ThreadPoolExecutor (max_workers : Z) : outcome unit :=
  if max_workers <=? 0 then Raise (ValueError "max_workers must be greater than 0")
  else Return tt.
End futures.

(** The collaborators. [getDownloadUrl img band scale bi sy sx] stands for
    [img.select(band).getDownloadUrl(dict(scale=scale, region=polygon))],
    the polygon being the one of the tile [sy, sx] of the band [bi],
    reprojected to EPSG:4326. [mounted_session retries backoff statuses] is
    a [requests.Session()] with the retrying adapter mounted. *)
Record World : Type := {
  libm_log2 : float -> float;
  requests_module : requests.Session;
  mounted_session : Z -> float -> list Z -> requests.Session;
  ZipFile : bytes -> outcome zipfile.ZipFile;
  MemoryFile_open : bytes -> outcome rasterio.DatasetReader;
  getDownloadUrl :
    ee.Image -> option string -> float -> BandInfo -> slice -> slice -> outcome string
}.

(** ** common.py *)

Module common.

(** The loop of [open_url]: every chunk that is not empty is written to the
    buffer, and the bar, when there is one, is advanced by 1024. *)
Fixpoint read_chunks (chunks : list bytes) (mem_file : bytes) (pbar : option tqdm.t)
  : bytes * option tqdm.t :=
  match chunks with
  | [] => (mem_file, pbar)
  | chunk :: rest =>
      match chunk with
      | [] => read_chunks rest mem_file pbar
      | _ :: _ =>
          read_chunks rest (mem_file ++ chunk)
            (match pbar with
             | Some p => Some (tqdm.update 1024 p)
             | None => None
             end)
      end
  end.

Definition open_url (w : World) (url : string) (session : option requests.Session)
  (pbar : option tqdm.t) : outcome (bytes * tqdm.t) :=
  let session := match session with Some s => s | None => requests_module w end in
  chunks <~ requests.get session url 1024 ;;
  let '(mem_file, pbar) := read_chunks chunks [] pbar in
  match pbar with
  | None => Raise (AttributeError "'NoneType' object has no attribute 'n'")
  | Some p =>
      if tqdm.n p <? tqdm.total p
      then Return (mem_file, tqdm.update (tqdm.total p - tqdm.n p) p)
      else Return (mem_file, p)
  end.

Definition open_zip_url (w : World) (url : string) (session : option requests.Session)
  (pbar : option tqdm.t) : outcome (bytes * tqdm.t) :=
  r <~ open_url w url session pbar ;;
  let '(content, pbar) := r in
  z <~ ZipFile w content ;;
  match zipfile.filelist z with
  | [] => Raise IndexError
  | first :: _ =>
      extracted <~ zipfile.read z first ;;
      Return (extracted, pbar)
  end.

Definition open_url_dataset (w : World) (url : string) (session : option requests.Session)
  (pbar : option tqdm.t) : outcome (rasterio.DatasetReader * tqdm.t) :=
  r <~ open_zip_url w url session pbar ;;
  let '(extracted, pbar) := r in
  ds <~ MemoryFile_open w extracted ;;
  _ <~ rasterio.read ds None ;;
  Return (ds, pbar).

Definition requests_retry_session (w : World) (retries : Z) (backoff_factor : float)
  (status_forcelist : list Z) : requests.Session :=
  mounted_session w retries backoff_factor status_forcelist.

(** [rm_tree]. What is at a path: a regular file, a directory with its
    entries in the order [glob('*')] lists them, or an entry of another kind
    (a fifo, a socket, a dangling link), for which [is_file()] is false and
    which is no directory. Names play no part and are left out, as are links
    to directories, permissions and a path where nothing is. *)
#[warnings="-register-all"]
Inductive node : Type :=
| File
| Special
| Dir (entries : list node).

Definition keep (remains : option node) (rest : list node) : list node :=
  match remains with
  | Some n => n :: rest
  | None => rest
  end.

(** The loop over the children: the outcome, and the entries that are left
    in the directory. *)
Definition rm_children (rm : node -> outcome unit * option node)
  : list node -> outcome unit * list node :=
  fix loop (todo : list node) :=
    match todo with
    | [] => (Return tt, [])
    | child :: rest =>
        match child with
        | File => loop rest
        | _ =>
            match rm child with
            | (Return _, remains) =>
                let '(o, rest') := loop rest in (o, keep remains rest')
            | (o, remains) => (o, keep remains rest)
            end
        end
    end.

(** The outcome of [rm_tree(pth)] and what is left at [pth]. *)
Fixpoint rm_tree (n : node) : outcome unit * option node :=
  match n with
  | Dir entries =>
      match rm_children rm_tree entries with
      | (Return _, []) => (Return tt, None)
      | (Return _, remains) =>
          (Raise (External "OSError: Directory not empty"), Some (Dir remains))
      | (o, remains) => (o, Some (Dir remains))
      end
  | _ => (Raise (External "NotADirectoryError"), Some n)
  end.

(** [create_geometry]. The argument is a tuple, a geometry, or a reference
    to a list that lives in the caller's store and may have other names
    there; [geometry.is_valid] is geojson's. *)
Section Geometry.

Context {point : Type} (point_ne : point -> point -> bool).

Inductive geometry : Type :=
| Point (coordinates : point)
| Polygon (coordinates : list (list point)).

Context (is_valid : geometry -> bool).

Inductive pts_arg : Type :=
| Tuple (p : point)
| Geometry (g : geometry)
| ListRef (l : nat).

Definition create_geometry (pts : pts_arg) (logger : option string)
  : M (gmap nat (list point) * list event) (option geometry) :=
  g <- match pts with
       | Tuple p => ret (Point p)
       | Geometry g => ret g
       | ListRef l =>
           s <- get_state ;;
           match fst s !! l with
           | None => raise (TypeError "object is not subscriptable")
           | Some [] => raise IndexError
           | Some (first :: rest) =>
               (if point_ne first (List.last rest first)
                then modify (fun s => (<[l := (first :: rest) ++ [first]]> (fst s), snd s))
                else ret tt) ;;;
               s <- get_state ;;
               match fst s !! l with
               | Some closed => ret (Polygon [closed])
               | None => raise (TypeError "object is not subscriptable")
               end
           end
       end ;;
  if is_valid g then ret (Some g)
  else
    let msg := "Informed points do not correspond to a valid polygon."%string in
    match logger with
    | Some _ => emit (LogError msg)
    | None => emit (Print msg)
    end ;;;
    ret None.

End Geometry.

End common.

(** ** gee.py *)

Module Tile.

Record t : Type := { slice_y : slice; slice_x : slice; band_info : BandInfo }.

Definition shape (self : t) : Z * Z :=
  (stop (slice_y self) - start (slice_y self),
   stop (slice_x self) - start (slice_x self)).

Definition slices (self : t) : slice * slice := (slice_y self, slice_x self).

(** The literal [1.3]: the binary64 nearest to 13/10. *)
Definition thirteen_tenths : float := 0x1.4cccccccccccdp+0%float.

(** [int(self.shape[0] * self.shape[1] * 1.3)]: the product of the two ints
    is converted to binary64, multiplied by the double [1.3] with one
    rounding, and truncated. *)
Definition size (self : t) : outcome Z :=
  int (float_of_int (fst (shape self) * snd (shape self)) * thirteen_tenths)%float.

Definition nominal_scale (self : t) : outcome float :=
  match nominal_scale (band_info self) with
  | Some s => Return s
  | None => Raise (KeyError "nominal_scale")
  end.

Definition download (w : World) (self : t) (img : option ee.Image) (band : option string)
  (session : option requests.Session) : outcome block :=
  match img with
  | None => Raise (AttributeError "'NoneType' object has no attribute 'select'")
  | Some img =>
      scale <~ nominal_scale self ;;
      url <~ getDownloadUrl w img band scale (band_info self) (slice_y self) (slice_x self) ;;
      total <~ size self ;;
      let pbar := {| tqdm.n := 0; tqdm.total := total |} in
      r <~ common.open_url_dataset w url session (Some pbar) ;;
      rasterio.read (fst r) (Some (shape self))
  end.

End Tile.

Module GEES2Downloader.

Record t : Type := {
  img : option ee.Image;
  band : option string;
  band_info : option BandInfo;
  array : option np.ndarray;
  tiles : option (list Tile.t);
  max_workers : Z
}.

(** The downloader and the console. *)
Definition St : Type := (t * list event)%type.

Definition __init__ (max_workers : Z) : t :=
  {| img := None; band := None; band_info := None; array := None;
     tiles := None; max_workers := max_workers |}.

Definition set_img (v : option ee.Image) : M St unit :=
  modify (fun s =>
    ({| img := v; band := band (fst s); band_info := band_info (fst s);
        array := array (fst s); tiles := tiles (fst s);
        max_workers := max_workers (fst s) |}, snd s)).

Definition set_band (v : option string) : M St unit :=
  modify (fun s =>
    ({| img := img (fst s); band := v; band_info := band_info (fst s);
        array := array (fst s); tiles := tiles (fst s);
        max_workers := max_workers (fst s) |}, snd s)).

Definition set_band_info (v : option BandInfo) : M St unit :=
  modify (fun s =>
    ({| img := img (fst s); band := band (fst s); band_info := v;
        array := array (fst s); tiles := tiles (fst s);
        max_workers := max_workers (fst s) |}, snd s)).

Definition set_array (v : option np.ndarray) : M St unit :=
  modify (fun s =>
    ({| img := img (fst s); band := band (fst s); band_info := band_info (fst s);
        array := v; tiles := tiles (fst s);
        max_workers := max_workers (fst s) |}, snd s)).

Definition set_tiles (v : option (list Tile.t)) : M St unit :=
  modify (fun s =>
    ({| img := img (fst s); band := band (fst s); band_info := band_info (fst s);
        array := array (fst s); tiles := v;
        max_workers := max_workers (fst s) |}, snd s)).

(** The defaults of the keyword arguments [excess_factor] and [max_size]. *)
Definition default_excess_factor : Z := 2.
Definition default_max_size : Z := 33554432.

Definition _estimate_band_size (w : World) (excess_factor : Z) : M St (option Z) :=
  s <- get_state ;;
  match band_info (fst s) with
  | None =>
      emit (LogWarning "GEES2Downloader not initialized") ;;;
      ret None
  | Some bi =>
      let values_range := dt_max (data_type bi) - dt_min (data_type bi) + 1 in
      bits <- lift (math_log2 (libm_log2 w) values_range) ;;
      let bts := (bits / 8)%float in
      let dimensions := dimensions bi in
      ret (Some (fst dimensions * snd dimensions * 2 * excess_factor))
  end.

(** The two loops of [_create_tiles]. [j] is 0 whenever the inner loop is
    entered: it starts at 0 and is set back to 0 after every row. *)
Fixpoint while_j (fuel : nat) (bi : BandInfo) (dimension : Z * Z) (step_y step_x : Z)
  (i j : Z) (tiles : list Tile.t) : outcome (list Tile.t) :=
  match fuel with
  | O => OutOfFuel
  | S fuel =>
      if j <? snd dimension then
        let slice_y :=
          {| start := i;
             stop := if i + step_y <? fst dimension then i + step_y else fst dimension |} in
        let slice_x :=
          {| start := j;
             stop := if j + step_x <? snd dimension then j + step_x else snd dimension |} in
        while_j fuel bi dimension step_y step_x i (j + step_x)
          (tiles ++ [{| Tile.slice_y := slice_y; Tile.slice_x := slice_x;
                        Tile.band_info := bi |}])
      else Return tiles
  end.

Fixpoint while_i (fuel : nat) (bi : BandInfo) (dimension : Z * Z) (step_y step_x : Z)
  (i : Z) (tiles : list Tile.t) : outcome (list Tile.t) :=
  match fuel with
  | O => OutOfFuel
  | S fuel =>
      if i <? fst dimension then
        tiles <~ while_j fuel bi dimension step_y step_x i 0 tiles ;;
        while_i fuel bi dimension step_y step_x (i + step_y) tiles
      else Return tiles
  end.

Definition _create_tiles (w : World) (fuel : nat) (max_size : Z)
  : M St (option (list Tile.t)) :=
  s <- get_state ;;
  match band_info (fst s) with
  | None =>
      emit (LogWarning "GEES2Downloader not initialized") ;;;
      ret None
  | Some bi =>
      size <- _estimate_band_size w default_excess_factor ;;
      match size with
      | None => raise (TypeError "unsupported operand type(s) for /: 'int' and 'NoneType'")
      | Some size =>
          q <- lift (true_div max_size size) ;;
          rescale_factor <- lift (math_sqrt q) ;;
          let dimension := dimensions bi in
          if (1 <? rescale_factor)%float then
            ret (Some [{| Tile.slice_y := {| start := 0; stop := fst dimension |};
                          Tile.slice_x := {| start := 0; stop := snd dimension |};
                          Tile.band_info := bi |}])
          else
            step_y <- lift (int (rescale_factor * float_of_int (fst dimension))) ;;
            step_x <- lift (int (rescale_factor * float_of_int (snd dimension))) ;;
            tiles <- lift (while_i fuel bi dimension step_y step_x 0 []) ;;
            ret (Some tiles)
      end
  end.

(** A future of the thread pool, once the pool has run: the outcome of its
    task; [OutOfFuel] is a task that never finishes. *)
Definition Future : Type := outcome block.

Definition done (f : Future) : bool :=
  match f with OutOfFuel => false | _ => true end.

Definition _workers_done (workers : list Future) : Z :=
  fold_left (fun running w => running + (if done w then 1 else 0)) workers 0.

(** The polling loop of [_download_band] ends when every worker is done, and
    not before. *)
Definition wait (workers : list Future) : outcome unit :=
  if _workers_done workers <? Z.of_nat (length workers) then OutOfFuel else Return tt.

(** [for tile, worker in zip(self.tiles, workers): img_array[tile.slices] =
    worker.result()]. The array at the end of the loop comes with the
    outcome: it is the local [img_array], lost when the loop raises. *)
Fixpoint recreate (img_array : np.ndarray) (pairs : list (Tile.t * Future))
  : outcome unit * np.ndarray :=
  match pairs with
  | [] => (Return tt, img_array)
  | (tile, worker) :: rest =>
      match worker with
      | Return b => recreate (np.setitem img_array (Tile.slices tile) b) rest
      | Raise e => (Raise e, img_array)
      | OutOfFuel => (OutOfFuel, img_array)
      end
  end.

(** [executor.submit(Tile.download, tile, self.img, self.band, session)] for
    every tile. *)
Fixpoint submit_all (w : World) (img : option ee.Image) (band : option string)
  (session : requests.Session) (tiles : list Tile.t) : M St (list Future) :=
  match tiles with
  | [] => ret []
  | tile :: rest =>
      emit (Submit (Tile.slices tile)) ;;;
      workers <- submit_all w img band session rest ;;
      ret (Tile.download w tile img band (Some session) :: workers)
  end.

Definition _download_band (w : World) (fuel : nat) : M St np.ndarray :=
  s <- get_state ;;
  match band_info (fst s) with
  | None => raise (TypeError "'NoneType' object is not subscriptable")
  | Some bi =>
      let img_array := np.zeros (dimensions bi) in
      tiles <- _create_tiles w fuel default_max_size ;;
      set_tiles tiles ;;;
      match tiles with
      | None => raise (TypeError "object of type 'NoneType' has no len()")
      | Some tiles =>
          emit (Print ("Dividing band in " ++ str (Z.of_nat (length tiles)) ++ " tiles")) ;;;
          s <- get_state ;;
          _ <- lift (futures.ThreadPoolExecutor (max_workers (fst s))) ;;
          let session :=
            common.requests_retry_session w 5 0x1.3333333333333p-2%float [500; 502; 503; 504] in
          workers <- submit_all w (img (fst s)) (band (fst s)) session tiles ;;
          _ <- lift (wait workers) ;;
          let '(o, img_array) := recreate img_array (combine tiles workers) in
          _ <- lift o ;;
          ret img_array
      end
  end.

Definition download (w : World) (fuel : nat) (img : ee.Image) (band : string)
  : M St unit :=
  emit (Print "Retrieving band info") ;;;
  emit (GetInfo "bandNames.contains") ;;;
  if ee.bandNames_contains img band then
    set_img (Some (ee.select img band)) ;;;
    set_band (Some band) ;;;
    emit (GetInfo "system:bands") ;;;
    bi <- lift (ee.system_bands (ee.select img band) band) ;;
    set_band_info (Some bi) ;;;
    emit (GetInfo "nominalScale") ;;;
    nominal <- lift (ee.projection_nominalScale (ee.select img band)) ;;
    set_band_info
      (Some {| dimensions := dimensions bi; data_type := data_type bi; crs := crs bi;
               crs_transform := crs_transform bi; nominal_scale := Some nominal |}) ;;;
    a <- _download_band w fuel ;;
    set_array (Some a) ;;;
    emit (Print "Finished. The result can be accessed at obj.array")
  else
    emit (LogError ("Image does not contain band " ++ band)).

(** [plot_tiling]: the loop [for i, tile in enumerate(self.tiles):
    arr[tile.slices] = i], and the array that is handed to [plt.imshow]. *)
Fixpoint paint (arr : np.ndarray) (i : Z) (tiles : list Tile.t) : np.ndarray :=
  match tiles with
  | [] => arr
  | tile :: rest => paint (np.fill_uint8 arr (Tile.slices tile) i) (i + 1) rest
  end.

Definition plot_tiling (self : t) : outcome np.ndarray :=
  match band_info self with
  | None => Raise (TypeError "'NoneType' object is not subscriptable")
  | Some bi =>
      let arr := np.zeros (dimensions bi) in
      match tiles self with
      | None => Raise (AttributeError "'GEES2Downloader' object has no attribute 'tiles'")
      | Some tiles => Return (paint arr 0 tiles)
      end
  end.

End GEES2Downloader.

(** ** Vocabulary of the properties *)

(** The tile [t] holds the pixel of row [y] and column [x]. *)
Definition covers (t : Tile.t) (y x : Z) : bool :=
  (start (Tile.slice_y t) <=? y) && (y <? stop (Tile.slice_y t)) &&
  (start (Tile.slice_x t) <=? x) && (x <? stop (Tile.slice_x t)).

(** How many tiles of the list hold the pixel. *)
Fixpoint covering (tiles : list Tile.t) (y x : Z) : nat :=
  match tiles with
  | [] => 0%nat
  | t :: rest => ((if covers t y x then 1 else 0) + covering rest y x)%nat
  end.

(** The tile is not empty and lies inside the grid. *)
Definition within (dimension : Z * Z) (t : Tile.t) : Prop :=
  0 <= start (Tile.slice_y t) < stop (Tile.slice_y t) /\
  stop (Tile.slice_y t) <= fst dimension /\
  0 <= start (Tile.slice_x t) < stop (Tile.slice_x t) /\
  stop (Tile.slice_x t) <= snd dimension.

(** The tiles are an exact partition of the grid: each lies inside it, and
    every pixel of the grid is held by exactly one of them. *)
Definition partition (dimension : Z * Z) (tiles : list Tile.t) : Prop :=
  Forall (within dimension) tiles /\
  forall y x, 0 <= y < fst dimension -> 0 <= x < snd dimension ->
    covering tiles y x = 1%nat.

(** How many chunks of a body are not empty. *)
Definition nonempty_chunks (chunks : list bytes) : Z :=
  Z.of_nat (length (List.filter (fun c => match c with [] => false | _ => true end) chunks)).

(** Iterations that are enough for the sweep when both steps are positive. *)
Definition sweep_fuel (dimension : Z * Z) : nat :=
  (Z.to_nat (fst dimension) + Z.to_nat (snd dimension) + 2)%nat.

(** The downloader and the console as [download] leaves them just before it
    calls [_download_band], when [b] is the band it selected. *)
Definition after_metadata (st : GEES2Downloader.St) (b : ee.Band) : GEES2Downloader.St :=
  ({| GEES2Downloader.img := Some [b];
      GEES2Downloader.band := Some (ee.name b);
      GEES2Downloader.band_info :=
        Some {| dimensions := dimensions (ee.info b); data_type := data_type (ee.info b);
                crs := crs (ee.info b); crs_transform := crs_transform (ee.info b);
                nominal_scale := Some (ee.scale b) |};
      GEES2Downloader.array := GEES2Downloader.array (fst st);
      GEES2Downloader.tiles := GEES2Downloader.tiles (fst st);
      GEES2Downloader.max_workers := GEES2Downloader.max_workers (fst st) |},
   snd st ++ [Print "Retrieving band info"; GetInfo "bandNames.contains";
              GetInfo "system:bands"; GetInfo "nominalScale"]).

(** A directory that holds only regular files and directories of the same
    kind. *)
Fixpoint removable (n : common.node) : bool :=
  match n with
  | common.Dir entries =>
      forallb (fun child => match child with
                            | common.File => true
                            | _ => removable child
                            end) entries
  | _ => false
  end.

(** What [rm_tree] does to any tree: it removes it, or it raises
    [NotADirectoryError] and leaves something behind. *)
Definition rm_tree_spec (n : common.node) : Prop :=
  (removable n = true -> common.rm_tree n = (Return tt, None)) /\
  (removable n = false ->
   fst (common.rm_tree n) = Raise (External "NotADirectoryError") /\
   exists remains, snd (common.rm_tree n) = Some remains).

(** The ring that [create_geometry] makes of a list that is not empty. *)
Definition closed_ring {point : Type} (point_ne : point -> point -> bool)
  (first : point) (rest : list point) : list point :=
  if point_ne first (List.last rest first) then (first :: rest) ++ [first]
  else first :: rest.

(** The tile is not larger than the two steps. *)
Definition fits_steps (step_y step_x : Z) (t : Tile.t) : Prop :=
  fst (Tile.shape t) <= step_y /\ snd (Tile.shape t) <= step_x.

(** The quotient of [a] by [b] rounded up. *)
Definition cdiv (a b : Z) : Z := (a + b - 1) / b.

(** ** Concrete bands, images and collaborators *)

Module Fixtures.

(** A band of 16-bit samples with the given [dimensions]. *)
Definition band_of (dims : Z * Z) : BandInfo :=
  {| dimensions := dims;
     data_type := {| dt_min := 0; dt_max := 65535 |};
     crs := "EPSG:32633";
     crs_transform := [10; 0; 600000; 0; -10; 4900020]%float;
     nominal_scale := None |}.

Definition image_of (dims : Z * Z) : ee.Image :=
  [ {| ee.name := "B4"; ee.info := band_of dims; ee.scale := 10%float |} ].

Definition url_of (sy sx : slice) : string :=
  "https://ee/" ++ str (start sy) ++ "," ++ str (start sx).

Definition payload : bytes := [Byte.x50; Byte.x4b; Byte.x03].

(** A session that serves [payload] in one chunk for every URL but [bad],
    for which it fails for good. *)
Definition session_failing (bad : string) : requests.Session :=
  {| requests.get := fun url _ =>
       if String.eqb url bad then Raise (External "ConnectionError")
       else Return [payload] |}.

(** Every tile decodes to a block of sevens; the request for the URL [bad]
    fails. *)
Definition world_failing (bad : string) : World :=
  {| libm_log2 := fun _ => 16%float;
     requests_module := session_failing bad;
     mounted_session := fun _ _ _ => session_failing bad;
     ZipFile := fun content =>
       Return {| zipfile.filelist :=
                   [ {| zipfile.filename := "tile.tif"; zipfile.header_offset := 0 |} ];
                 zipfile.read := fun _ => Return content |};
     MemoryFile_open := fun _ =>
       Return {| rasterio.read := fun _ => Return (fun _ _ => 7) |};
     getDownloadUrl := fun _ _ _ _ sy sx => Return (url_of sy sx) |}.

Definition world : World := world_failing "".

(** An archive of two entries, the second of which is damaged, and a world
    in which every body is that archive. *)
Definition archive_two : zipfile.ZipFile :=
  {| zipfile.filelist :=
       [ {| zipfile.filename := "a.tif"; zipfile.header_offset := 0 |};
         {| zipfile.filename := "b.tif"; zipfile.header_offset := 64 |} ];
     zipfile.read := fun info =>
       if zipfile.header_offset info =? 0 then Return [Byte.x01]
       else Raise (External "BadZipFile") |}.

(** A world in which every body is an archive without entries. *)
Definition world_empty_archive : World :=
  {| libm_log2 := libm_log2 world;
     requests_module := requests_module world;
     mounted_session := mounted_session world;
     ZipFile := fun _ =>
       Return {| zipfile.filelist := []; zipfile.read := fun _ => Raise IndexError |};
     MemoryFile_open := MemoryFile_open world;
     getDownloadUrl := getDownloadUrl world |}.

Definition world_two_entries : World :=
  {| libm_log2 := libm_log2 world;
     requests_module := requests_module world;
     mounted_session := mounted_session world;
     ZipFile := fun _ => Return archive_two;
     MemoryFile_open := MemoryFile_open world;
     getDownloadUrl := getDownloadUrl world |}.

(** A downloader on which [download] has fetched the metadata of a band. *)
Definition initialized (dims : Z * Z) : GEES2Downloader.St :=
  ({| GEES2Downloader.img := Some (image_of dims);
      GEES2Downloader.band := Some "B4"%string;
      GEES2Downloader.band_info := Some (band_of dims);
      GEES2Downloader.array := None;
      GEES2Downloader.tiles := None;
      GEES2Downloader.max_workers := 5 |}, []).

Definition fresh : GEES2Downloader.St := (GEES2Downloader.__init__ 5, []).

(** The same with the nominal scale in place, as [download] leaves it just
    before [_download_band], and a tile of that band. *)
Definition scaled_band_of (dims : Z * Z) : BandInfo :=
  {| dimensions := dims;
     data_type := data_type (band_of dims);
     crs := crs (band_of dims);
     crs_transform := crs_transform (band_of dims);
     nominal_scale := Some 10%float |}.

Definition ready (dims : Z * Z) : GEES2Downloader.St :=
  ({| GEES2Downloader.img := Some (image_of dims);
      GEES2Downloader.band := Some "B4"%string;
      GEES2Downloader.band_info := Some (scaled_band_of dims);
      GEES2Downloader.array := None;
      GEES2Downloader.tiles := None;
      GEES2Downloader.max_workers := 5 |}, []).

(** The same downloader made with [max_workers=0]. *)
Definition ready_without_workers (dims : Z * Z) : GEES2Downloader.St :=
  ({| GEES2Downloader.img := Some (image_of dims);
      GEES2Downloader.band := Some "B4"%string;
      GEES2Downloader.band_info := Some (scaled_band_of dims);
      GEES2Downloader.array := None;
      GEES2Downloader.tiles := None;
      GEES2Downloader.max_workers := 0 |}, []).

(** Points with integer coordinates, their comparison, and the test that
    geojson makes of a polygon: every ring has four positions at least and
    ends where it starts. *)
Definition pt_ne (a b : Z * Z) : bool := negb ((fst a =? fst b) && (snd a =? snd b)).

Definition ring_valid (g : @common.geometry (Z * Z)) : bool :=
  match g with
  | common.Point _ => true
  | common.Polygon rings =>
      forallb (fun ring =>
                 match ring with
                 | [] => false
                 | first :: rest =>
                     (4 <=? Z.of_nat (length ring)) && negb (pt_ne first (List.last rest first))
                 end) rings
  end.

(** A store with an open triangle at address 0 and an empty list at
    address 1. *)
Definition triangle_heap : gmap nat (list (Z * Z)) :=
  <[0%nat := [(0, 0); (4, 0); (4, 3)]]> (<[1%nat := []]> ∅).

(** A downloader that holds the array of an earlier download of 2 x 2
    pixels. *)
Definition loaded : GEES2Downloader.St :=
  ({| GEES2Downloader.img := Some (image_of (2, 2));
      GEES2Downloader.band := Some "B4"%string;
      GEES2Downloader.band_info := Some (scaled_band_of (2, 2));
      GEES2Downloader.array := Some (np.zeros (2, 2));
      GEES2Downloader.tiles := Some [];
      GEES2Downloader.max_workers := 5 |}, []).

Definition tile_of (dims : Z * Z) (y0 y1 x0 x1 : Z) : Tile.t :=
  {| Tile.slice_y := {| start := y0; stop := y1 |};
     Tile.slice_x := {| start := x0; stop := x1 |};
     Tile.band_info := scaled_band_of dims |}.

End Fixtures.

(* ===================================================================== *)
(** * Part II: properties *)
(* ===================================================================== *)

Import GEES2Downloader.

Ltac zbool :=
  repeat match goal with
  | |- context [Z.leb ?a ?b] => destruct (Z.leb_spec a b)
  | |- context [Z.ltb ?a ?b] => destruct (Z.ltb_spec a b)
  end; cbn [andb orb negb]; try lia.

(** ** The sweep of [_create_tiles] *)

(** The clipping of a tile to the grid boundary is a minimum. *)
Lemma clip_min a d : (if a <? d then a else d) = Z.min a d.
Proof. destruct (Z.ltb_spec a d); lia. Qed.

Lemma covering_app tiles1 tiles2 y x :
  covering (tiles1 ++ tiles2) y x = (covering tiles1 y x + covering tiles2 y x)%nat.
Proof.
  induction tiles1 as [|t tiles1 IH]; cbn [covering app]; [reflexivity|].
  rewrite IH. lia.
Qed.

Section Sweep.

Variable bi : BandInfo.
Variable dimension : Z * Z.
Variables step_y step_x : Z.

Lemma while_j_never_raises fuel i j tiles e :
  while_j fuel bi dimension step_y step_x i j tiles <> Raise e.
Proof.
  revert j tiles.
  induction fuel as [|fuel IH]; intros j tiles; cbn [while_j]; [discriminate|].
  destruct (j <? snd dimension); [apply IH | discriminate].
Qed.

(** A column step that is not positive keeps [j] below the width for ever. *)
Lemma while_j_stuck fuel i j tiles :
  step_x <= 0 -> j < snd dimension ->
  while_j fuel bi dimension step_y step_x i j tiles = OutOfFuel.
Proof.
  intros Hstep. revert j tiles.
  induction fuel as [|fuel IH]; intros j tiles Hj; cbn [while_j]; [reflexivity|].
  destruct (Z.ltb_spec j (snd dimension)) as [_|Hge]; [|lia].
  apply IH. lia.
Qed.

Lemma while_i_stuck_x fuel i tiles :
  step_x <= 0 -> 0 < snd dimension -> i < fst dimension ->
  while_i fuel bi dimension step_y step_x i tiles = OutOfFuel.
Proof.
  intros Hstep Hw Hi.
  destruct fuel as [|fuel]; cbn [while_i]; [reflexivity|].
  destruct (Z.ltb_spec i (fst dimension)) as [_|Hge]; [|lia].
  rewrite while_j_stuck by assumption. reflexivity.
Qed.

(** A row step that is not positive keeps [i] below the height for ever. *)
Lemma while_i_stuck_y fuel i tiles :
  step_y <= 0 -> i < fst dimension ->
  while_i fuel bi dimension step_y step_x i tiles = OutOfFuel.
Proof.
  intros Hstep. revert i tiles.
  induction fuel as [|fuel IH]; intros i tiles Hi; cbn [while_i]; [reflexivity|].
  destruct (Z.ltb_spec i (fst dimension)) as [_|Hge]; [|lia].
  destruct (while_j fuel bi dimension step_y step_x i 0 tiles) as [row|e|] eqn:Hrow;
    cbn [obind].
  - apply IH. lia.
  - exfalso. exact (while_j_never_raises _ _ _ _ _ Hrow).
  - reflexivity.
Qed.

(** The sweep never finishes when a step is not positive and the grid has a
    pixel. *)
Lemma sweep_stuck fuel :
  0 < fst dimension -> 0 < snd dimension -> step_y <= 0 \/ step_x <= 0 ->
  while_i fuel bi dimension step_y step_x 0 [] = OutOfFuel.
Proof.
  intros Hh Hw [Hy|Hx].
  - apply while_i_stuck_y; assumption.
  - apply while_i_stuck_x; assumption.
Qed.

Hypothesis step_y_pos : 0 < step_y.
Hypothesis step_x_pos : 0 < step_x.

(** One row: the inner loop started at column [j] of row [i] appends tiles
    that hold, each pixel once, the columns from [j] on of the rows of the
    band of [i]. *)
Lemma while_j_row n : forall fuel i j tiles,
  0 <= i < fst dimension -> 0 <= j ->
  (Z.to_nat (snd dimension - j) <= n)%nat -> (n < fuel)%nat ->
  exists row,
    while_j fuel bi dimension step_y step_x i j tiles = Return (tiles ++ row) /\
    Forall (within dimension) row /\
    forall y x,
      covering row y x =
      if (i <=? y) && (y <? Z.min (i + step_y) (fst dimension)) &&
         (j <=? x) && (x <? snd dimension)
      then 1%nat else 0%nat.
Proof.
  induction n as [|n IH]; intros fuel i j tiles Hi Hj Hn Hfuel.
  - destruct fuel as [|fuel]; [lia|]. cbn [while_j].
    destruct (Z.ltb_spec j (snd dimension)) as [Hlt|Hge]; [lia|].
    exists []. rewrite app_nil_r. repeat split; [constructor|].
    intros y x. cbn [covering]. zbool.
  - destruct fuel as [|fuel]; [lia|]. cbn [while_j].
    destruct (Z.ltb_spec j (snd dimension)) as [Hlt|Hge].
    + destruct (IH fuel i (j + step_x)
                  (tiles ++ [{| Tile.slice_y :=
                                  {| start := i;
                                     stop := if i + step_y <? fst dimension
                                             then i + step_y else fst dimension |};
                                Tile.slice_x :=
                                  {| start := j;
                                     stop := if j + step_x <? snd dimension
                                             then j + step_x else snd dimension |};
                                Tile.band_info := bi |}]))
        as (row & Hrun & Hin & Hcov); try lia.
      eexists (_ :: row). rewrite Hrun, <- app_assoc. cbn [app].
      repeat split.
      * constructor; [|exact Hin].
        unfold within; cbn [Tile.slice_y Tile.slice_x start stop].
        rewrite !clip_min. lia.
      * intros y x. cbn [covering]. rewrite Hcov.
        unfold covers; cbn [Tile.slice_y Tile.slice_x start stop].
        rewrite !clip_min. zbool.
    + exists []. rewrite app_nil_r. repeat split; [constructor|].
      intros y x. cbn [covering]. zbool.
Qed.

(** The rows: the outer loop started at row [i] appends tiles that hold,
    each pixel once, the rows from [i] on. *)
Lemma while_i_rows n : forall fuel i tiles,
  0 <= i ->
  (Z.to_nat (fst dimension - i) <= n)%nat ->
  (n + Z.to_nat (snd dimension) + 1 < fuel)%nat ->
  exists rows,
    while_i fuel bi dimension step_y step_x i tiles = Return (tiles ++ rows) /\
    Forall (within dimension) rows /\
    forall y x,
      covering rows y x =
      if (i <=? y) && (y <? fst dimension) && (0 <=? x) && (x <? snd dimension)
      then 1%nat else 0%nat.
Proof.
  induction n as [|n IH]; intros fuel i tiles Hi Hn Hfuel.
  - destruct fuel as [|fuel]; [lia|]. cbn [while_i].
    destruct (Z.ltb_spec i (fst dimension)) as [Hlt|Hge]; [lia|].
    exists []. rewrite app_nil_r. repeat split; [constructor|].
    intros y x. cbn [covering]. zbool.
  - destruct fuel as [|fuel]; [lia|]. cbn [while_i].
    destruct (Z.ltb_spec i (fst dimension)) as [Hlt|Hge].
    + destruct (while_j_row (Z.to_nat (snd dimension)) fuel i 0 tiles)
        as (row & Hrow & Hin_row & Hcov_row); try lia.
      rewrite Hrow. cbn [obind].
      destruct (IH fuel (i + step_y) (tiles ++ row))
        as (rows & Hrows & Hin_rows & Hcov_rows); try lia.
      exists (row ++ rows). rewrite Hrows, app_assoc.
      repeat split.
      * apply Forall_app; split; assumption.
      * intros y x. rewrite covering_app, Hcov_row, Hcov_rows. zbool.
    + exists []. rewrite app_nil_r. repeat split; [constructor|].
      intros y x. cbn [covering]. zbool.
Qed.

(** With positive steps the sweep finishes within [sweep_fuel] iterations,
    and its tiles are an exact partition of the grid. *)
Lemma sweep_partition fuel :
  (sweep_fuel dimension <= fuel)%nat ->
  exists tiles,
    while_i fuel bi dimension step_y step_x 0 [] = Return tiles /\
    partition dimension tiles.
Proof.
  intros Hfuel. unfold sweep_fuel in Hfuel.
  destruct (while_i_rows (Z.to_nat (fst dimension)) fuel 0 [])
    as (tiles & Hrun & Hin & Hcov); try lia.
  exists tiles. split; [exact Hrun|]. split; [exact Hin|].
  intros y x Hy Hx. rewrite Hcov. zbool.
Qed.

End Sweep.

(** ** [_estimate_band_size] and [_create_tiles] *)

(** On an initialized downloader whose data-type range is not empty the
    estimate is the pixel count times [2 * excess_factor]; the state is left
    as it was. *)
Lemma estimate_band_size_run w excess_factor st bi :
  band_info (fst st) = Some bi ->
  dt_min (data_type bi) <= dt_max (data_type bi) ->
  _estimate_band_size w excess_factor st =
  (Return (Some (fst (dimensions bi) * snd (dimensions bi) * 2 * excess_factor)), st).
Proof.
  intros Hbi Hrange.
  unfold _estimate_band_size, bind, get_state. rewrite Hbi.
  unfold lift, math_log2.
  destruct (Z.leb_spec (dt_max (data_type bi) - dt_min (data_type bi) + 1) 0); [lia|].
  reflexivity.
Qed.

(** What [_create_tiles] does once the band fits no single tile: it runs the
    sweep with the two truncated steps, as they are. *)
Lemma create_tiles_run w fuel max_size st bi q r sy sx :
  band_info (fst st) = Some bi ->
  dt_min (data_type bi) <= dt_max (data_type bi) ->
  true_div max_size
    (fst (dimensions bi) * snd (dimensions bi) * 2 * default_excess_factor) = Return q ->
  math_sqrt q = Return r ->
  (1 <? r)%float = false ->
  int (r * float_of_int (fst (dimensions bi))) = Return sy ->
  int (r * float_of_int (snd (dimensions bi))) = Return sx ->
  _create_tiles w fuel max_size st =
  (tiles <~ while_i fuel bi (dimensions bi) sy sx 0 [] ;; Return (Some tiles), st).
Proof.
  intros Hbi Hrange Hq Hr Hone Hsy Hsx.
  unfold _create_tiles. unfold bind at 1. unfold get_state. rewrite Hbi.
  unfold bind at 1.
  rewrite (estimate_band_size_run w default_excess_factor st bi Hbi Hrange).
  unfold bind at 1. unfold lift at 1. rewrite Hq.
  unfold bind at 1. unfold lift at 1. rewrite Hr.
  rewrite Hone.
  unfold bind at 1. unfold lift at 1. rewrite Hsy.
  unfold bind at 1. unfold lift at 1. rewrite Hsx.
  unfold bind, lift, ret.
  destruct (while_i fuel bi (dimensions bi) sy sx 0 []); reflexivity.
Qed.

(** What [_create_tiles] does when the whole band fits the budget. *)
Lemma create_tiles_single w fuel max_size st bi q r :
  band_info (fst st) = Some bi ->
  dt_min (data_type bi) <= dt_max (data_type bi) ->
  true_div max_size
    (fst (dimensions bi) * snd (dimensions bi) * 2 * default_excess_factor) = Return q ->
  math_sqrt q = Return r ->
  (1 <? r)%float = true ->
  _create_tiles w fuel max_size st =
  (Return (Some [{| Tile.slice_y := {| start := 0; stop := fst (dimensions bi) |};
                    Tile.slice_x := {| start := 0; stop := snd (dimensions bi) |};
                    Tile.band_info := bi |}]), st).
Proof.
  intros Hbi Hrange Hq Hr Hone.
  unfold _create_tiles. unfold bind at 1. unfold get_state. rewrite Hbi.
  unfold bind at 1.
  rewrite (estimate_band_size_run w default_excess_factor st bi Hbi Hrange).
  unfold bind at 1. unfold lift at 1. rewrite Hq.
  unfold bind at 1. unfold lift at 1. rewrite Hr.
  rewrite Hone. reflexivity.
Qed.

(** X1. With positive dimensions, [_create_tiles] returns an exact partition
    of the grid whenever the band fits one tile, and whenever both truncated
    steps are at least one pixel. *)
Theorem create_tiles_partition_of_positive_steps w max_size st bi q r :
  band_info (fst st) = Some bi ->
  dt_min (data_type bi) <= dt_max (data_type bi) ->
  0 < fst (dimensions bi) -> 0 < snd (dimensions bi) ->
  true_div max_size
    (fst (dimensions bi) * snd (dimensions bi) * 2 * default_excess_factor) = Return q ->
  math_sqrt q = Return r ->
  ((1 <? r)%float = true \/
   exists sy sx,
     int (r * float_of_int (fst (dimensions bi))) = Return sy /\
     int (r * float_of_int (snd (dimensions bi))) = Return sx /\
     0 < sy /\ 0 < sx) ->
  forall fuel, (sweep_fuel (dimensions bi) <= fuel)%nat ->
  exists tiles,
    _create_tiles w fuel max_size st = (Return (Some tiles), st) /\
    partition (dimensions bi) tiles.
Proof.
  intros Hbi Hrange Hh Hw Hq Hr Hcase fuel Hfuel.
  destruct ((1 <? r)%float) eqn:Hone.
  - eexists. split; [apply (create_tiles_single w fuel max_size st bi q r); assumption|].
    split.
    + repeat constructor; cbn [Tile.slice_y Tile.slice_x start stop]; lia.
    + intros y x Hy Hx. unfold covering, covers.
      cbn [Tile.slice_y Tile.slice_x start stop]. zbool.
  - destruct Hcase as [Habs|(sy & sx & Hsy & Hsx & Hsy_pos & Hsx_pos)]; [discriminate|].
    destruct (sweep_partition bi (dimensions bi) sy sx Hsy_pos Hsx_pos fuel Hfuel)
      as (tiles & Hrun & Hpart).
    exists tiles. split; [|exact Hpart].
    rewrite (create_tiles_run w fuel max_size st bi q r sy sx) by assumption.
    rewrite Hrun. reflexivity.
Qed.

(** C2 (the code has no clamp). When the band is larger than the budget and
    the truncation of [rescale_factor * dimension] gives 0 for the rows or for
    the columns, [_create_tiles] sweeps with that step as it is: on a grid
    that has a pixel the loops make no progress, and no amount of fuel lets
    the call return. *)
Theorem create_tiles_zero_step_never_returns w max_size st bi q r sy sx :
  band_info (fst st) = Some bi ->
  dt_min (data_type bi) <= dt_max (data_type bi) ->
  0 < fst (dimensions bi) -> 0 < snd (dimensions bi) ->
  true_div max_size
    (fst (dimensions bi) * snd (dimensions bi) * 2 * default_excess_factor) = Return q ->
  math_sqrt q = Return r ->
  (1 <? r)%float = false ->
  int (r * float_of_int (fst (dimensions bi))) = Return sy ->
  int (r * float_of_int (snd (dimensions bi))) = Return sx ->
  sy = 0 \/ sx = 0 ->
  forall fuel, fst (_create_tiles w fuel max_size st) = OutOfFuel.
Proof.
  intros Hbi Hrange Hh Hw Hq Hr Hone Hsy Hsx Hzero fuel.
  rewrite (create_tiles_run w fuel max_size st bi q r sy sx) by assumption.
  rewrite sweep_stuck by (assumption || lia). reflexivity.
Qed.

(** A band of 4 x 4 pixels and a budget of one byte: both steps are
    [int(0.125 * 4) = 0]. *)
Lemma create_tiles_zero_step_never_returns_witness :
  fst (_create_tiles Fixtures.world 1000 1 (Fixtures.initialized (4, 4))) = OutOfFuel.
Proof.
  apply (create_tiles_zero_step_never_returns Fixtures.world 1
           (Fixtures.initialized (4, 4)) (Fixtures.band_of (4, 4))
           0.015625%float 0.125%float 0 0);
    try (vm_compute; reflexivity); try (left; reflexivity);
    cbn [Fixtures.band_of data_type dimensions dt_min dt_max fst snd]; lia.
Defined.

(** C1 (the failing input). A band of dimensions [1, 10000000] under the
    default budget of 33554432 bytes: the estimate is 40000000 bytes, the
    factor is 0.9158..., the row step is [int(0.9158... * 1) = 0], and
    [_create_tiles] returns no tile list whatever the fuel. *)
Theorem create_tiles_thin_band_returns_no_tiles :
  forall fuel,
    fst (_create_tiles Fixtures.world fuel 33554432
           (Fixtures.initialized (1, 10000000))) = OutOfFuel.
Proof.
  intros fuel.
  erewrite (create_tiles_run Fixtures.world fuel 33554432
              (Fixtures.initialized (1, 10000000)) (Fixtures.band_of (1, 10000000))
              _ _ 0 9158934);
    try (vm_compute; reflexivity).
  - rewrite sweep_stuck; [reflexivity | | | left];
      cbn [Fixtures.band_of dimensions fst snd]; lia.
  - cbn [Fixtures.band_of data_type dt_min dt_max]; lia.
Qed.

(** C4. On an initialized downloader whose data-type range is not empty,
    [_estimate_band_size] takes the base-2 logarithm of [max - min + 1] and
    then returns [dimensions[0] * dimensions[1] * 2 * excess_factor] (four
    bytes per pixel with the default factor 2), leaving the downloader as it
    was; the value is the same for every data-type range and every
    logarithm, so the bit depth plays no part in it. *)
Theorem estimate_band_size_ignores_bit_depth w excess_factor st bi :
  band_info (fst st) = Some bi ->
  dt_min (data_type bi) <= dt_max (data_type bi) ->
  math_log2 (libm_log2 w) (dt_max (data_type bi) - dt_min (data_type bi) + 1) =
    Return (libm_log2 w (float_of_int (dt_max (data_type bi) - dt_min (data_type bi) + 1))) /\
  _estimate_band_size w excess_factor st =
    (Return (Some (fst (dimensions bi) * snd (dimensions bi) * 2 * excess_factor)), st) /\
  fst (_estimate_band_size w default_excess_factor st) =
    Return (Some (fst (dimensions bi) * snd (dimensions bi) * 4)) /\
  (forall w' st' bi',
     band_info (fst st') = Some bi' ->
     dt_min (data_type bi') <= dt_max (data_type bi') ->
     dimensions bi' = dimensions bi ->
     fst (_estimate_band_size w' excess_factor st') =
     fst (_estimate_band_size w excess_factor st)).
Proof.
  intros Hbi Hrange. repeat split.
  - unfold math_log2.
    destruct (Z.leb_spec (dt_max (data_type bi) - dt_min (data_type bi) + 1) 0);
      [lia | reflexivity].
  - apply estimate_band_size_run; assumption.
  - rewrite (estimate_band_size_run w default_excess_factor st bi Hbi Hrange).
    unfold default_excess_factor. cbn [fst]. do 2 f_equal. lia.
  - intros w' st' bi' Hbi' Hrange' Hdims.
    rewrite (estimate_band_size_run w' excess_factor st' bi' Hbi' Hrange').
    rewrite (estimate_band_size_run w excess_factor st bi Hbi Hrange).
    rewrite Hdims. reflexivity.
Qed.

(** A band of 100 x 80 samples of 16 bits: 100 * 80 * 2 * 2 = 32000. *)
Lemma estimate_band_size_ignores_bit_depth_witness :
  fst (_estimate_band_size Fixtures.world 2 (Fixtures.initialized (100, 80))) =
  Return (Some 32000).
Proof.
  pose proof (estimate_band_size_ignores_bit_depth Fixtures.world 2
                (Fixtures.initialized (100, 80)) (Fixtures.band_of (100, 80))
                eq_refl) as H.
  cbn [Fixtures.band_of data_type dt_min dt_max dimensions fst snd] in H.
  destruct H as (_ & Hrun & _); [lia|].
  rewrite Hrun. reflexivity.
Defined.

(** ** Binary64 arithmetic

    What [SpecFloat] computes for the conversion of a small int and for one
    product, as far as [Tile.size] needs it. *)

(** The number of binary digits of a significand. *)
Lemma digits2_pos_bounds p :
  2 ^ (Z.pos (digits2_pos p) - 1) <= Z.pos p < 2 ^ Z.pos (digits2_pos p).
Proof.
  induction p as [p IH|p IH|]; cbn [digits2_pos].
  - rewrite Pos2Z.inj_succ. change (Z.pos p~1) with (2 * Z.pos p + 1).
    replace (Z.succ (Z.pos (digits2_pos p)) - 1) with (Z.succ (Z.pos (digits2_pos p) - 1)) by lia.
    rewrite !Z.pow_succ_r by lia.
    set (x := 2 ^ (Z.pos (digits2_pos p) - 1)) in *.
    set (y := 2 ^ (Z.pos (digits2_pos p))) in *. lia.
  - rewrite Pos2Z.inj_succ. change (Z.pos p~0) with (2 * Z.pos p).
    replace (Z.succ (Z.pos (digits2_pos p)) - 1) with (Z.succ (Z.pos (digits2_pos p) - 1)) by lia.
    rewrite !Z.pow_succ_r by lia.
    set (x := 2 ^ (Z.pos (digits2_pos p) - 1)) in *.
    set (y := 2 ^ (Z.pos (digits2_pos p))) in *. lia.
  - cbn. lia.
Qed.

Lemma digits2_pos_unique p k :
  2 ^ (k - 1) <= Z.pos p < 2 ^ k -> Z.pos (digits2_pos p) = k.
Proof.
  intros [Hlo Hhi]. pose proof (digits2_pos_bounds p) as [Hlo' Hhi'].
  assert (0 < k).
  { destruct (Z.ltb_spec 0 k) as [?|Hle]; [assumption|].
    assert (2 ^ k <= 1); [|lia].
    destruct (Z.eq_dec k 0) as [->|]; [cbn; lia|].
    rewrite Z.pow_neg_r by lia. lia. }
  assert (Z.pos (digits2_pos p) - 1 < k).
  { apply (Z.pow_lt_mono_r_iff 2); lia. }
  assert (k - 1 < Z.pos (digits2_pos p)).
  { apply (Z.pow_lt_mono_r_iff 2); lia. }
  lia.
Qed.

Lemma iter_xO_mul p n : Z.pos (Pos.iter xO p n) = Z.pos p * 2 ^ Z.pos n.
Proof.
  induction n as [|n IH] using Pos.peano_ind.
  - cbn. lia.
  - rewrite Pos.iter_succ.
    change (Z.pos (Pos.iter xO p n)~0) with (2 * Z.pos (Pos.iter xO p n)).
    rewrite IH, Pos2Z.inj_succ, Z.pow_succ_r by lia. lia.
Qed.

Lemma shr_1_m mrs : 0 <= shr_m mrs -> shr_m (shr_1 mrs) = shr_m mrs / 2.
Proof.
  destruct mrs as [m r s]. cbn [shr_m]. intros Hm. rewrite <- Z.div2_div.
  destruct m as [|[p|p|]|p]; try reflexivity. lia.
Qed.

Lemma iter_shr_1_m p : forall mrs,
  0 <= shr_m mrs -> shr_m (SpecFloat.iter_pos shr_1 p mrs) = shr_m mrs / 2 ^ Z.pos p.
Proof.
  induction p as [p IH|p IH|]; intros mrs Hm; cbn [SpecFloat.iter_pos].
  - assert (0 <= shr_m (shr_1 mrs)) by (rewrite shr_1_m by lia; apply Z.div_pos; lia).
    assert (0 <= shr_m (SpecFloat.iter_pos shr_1 p (shr_1 mrs)))
      by (rewrite IH by lia; apply Z.div_pos; lia).
    rewrite IH, IH, shr_1_m by lia.
    rewrite !Z.div_div by lia.
    f_equal. change (Z.pos p~1) with (2 * Z.pos p + 1).
    replace (2 * Z.pos p + 1) with (Z.succ (Z.pos p + Z.pos p)) by lia.
    rewrite Z.pow_succ_r, Z.pow_add_r by lia. lia.
  - assert (0 <= shr_m (SpecFloat.iter_pos shr_1 p mrs))
      by (rewrite IH by lia; apply Z.div_pos; lia).
    rewrite IH, IH by lia.
    rewrite !Z.div_div by lia.
    f_equal. change (Z.pos p~0) with (2 * Z.pos p).
    replace (2 * Z.pos p) with (Z.pos p + Z.pos p) by lia.
    rewrite Z.pow_add_r by lia. lia.
  - rewrite shr_1_m by lia. reflexivity.
Qed.

Lemma round_nearest_even_bounds m l : m <= round_nearest_even m l <= m + 1.
Proof.
  destruct l as [|[]]; cbn [round_nearest_even]; try lia.
  destruct (Z.even m); lia.
Qed.

Lemma fexp_normal x : -1021 <= x -> fexp prec emax x = x - 53.
Proof. intros. unfold fexp, SpecFloat.emin, prec, emax. lia. Qed.

(** Rounding a positive significand of at least 54 digits in the normal
    range: the significand is cut to 53 digits and moved by at most one. *)
Lemma binary_round_aux_normal (P : positive) (e : Z) :
  54 <= Z.pos (digits2_pos P) ->
  -1021 <= Z.pos (digits2_pos P) + e <= 1023 ->
  exists (m : positive) (e2 m2 : Z),
    binary_round_aux prec emax false (Z.pos P) e loc_Exact = S754_finite false m e2 /\
    Z.pos P / 2 ^ (Z.pos (digits2_pos P) - 53) <= m2
      <= Z.pos P / 2 ^ (Z.pos (digits2_pos P) - 53) + 1 /\
    ((Z.pos m = m2 /\ e2 = e + (Z.pos (digits2_pos P) - 53)) \/
     (m2 = 2 ^ 53 /\ Z.pos m = 2 ^ 52 /\ e2 = e + (Z.pos (digits2_pos P) - 53) + 1)).
Proof.
  intros HD Hrange. set (D := Z.pos (digits2_pos P)) in *.
  pose proof (digits2_pos_bounds P) as HP. fold D in HP.
  remember (binary_round_aux prec emax false (Z.pos P) e loc_Exact) as R eqn:HR.
  unfold binary_round_aux in HR. unfold shr_fexp at 1 in HR.
  cbn [Zdigits2] in HR. fold D in HR.
  rewrite fexp_normal in HR by lia.
  replace (D + e - 53 - e) with (Z.pos (Z.to_pos (D - 53))) in HR by lia.
  unfold shr at 1 in HR. cbn [shr_record_of_loc] in HR.
  set (mrs := SpecFloat.iter_pos shr_1 (Z.to_pos (D - 53))
                {| shr_m := Z.pos P; shr_r := false; shr_s := false |}) in HR.
  assert (Hm1 : shr_m mrs = Z.pos P / 2 ^ (D - 53)).
  { unfold mrs. rewrite iter_shr_1_m by (cbn; lia). cbn [shr_m].
    rewrite Z2Pos.id by lia. reflexivity. }
  set (m1 := Z.pos P / 2 ^ (D - 53)) in *.
  assert (Hm1b : 2 ^ 52 <= m1 < 2 ^ 53).
  { unfold m1. split.
    - apply Z.div_le_lower_bound; [lia|].
      rewrite <- Z.pow_add_r by lia. replace (D - 53 + 52) with (D - 1) by lia. lia.
    - apply Z.div_lt_upper_bound; [lia|].
      rewrite <- Z.pow_add_r by lia. replace (D - 53 + 53) with D by lia. lia. }
  pose proof (round_nearest_even_bounds (shr_m mrs) (loc_of_shr_record mrs)) as Hm2.
  set (m2 := round_nearest_even (shr_m mrs) (loc_of_shr_record mrs)) in *.
  rewrite Hm1 in Hm2.
  destruct m2 as [|q|q] eqn:Eq; try lia.
  rewrite Z2Pos.id in HR by lia.
  destruct (Z.eq_dec (Z.pos q) (2 ^ 53)) as [Htop|Hlow].
  - (* the carry: one more shift *)
    assert (Hdq : Z.pos (digits2_pos q) = 54).
    { apply digits2_pos_unique. rewrite Htop. change (54 - 1) with 53.
      split; [lia|]. apply Z.pow_lt_mono_r; lia. }
    unfold shr_fexp in HR. cbn [Zdigits2] in HR. rewrite Hdq in HR.
    rewrite fexp_normal in HR by lia.
    replace (54 + (e + (D - 53)) - 53 - (e + (D - 53))) with 1 in HR by lia.
    cbn [shr shr_record_of_loc SpecFloat.iter_pos] in HR.
    assert (Hq : q = Z.to_pos (2 ^ 53)) by lia.
    rewrite Hq in HR.
    cbn [shr_1 shr_m Z.pow Z.pow_pos Pos.iter Z.mul Pos.mul Z.to_pos] in HR.
    replace (e + (D - 53) + 1 <=? emax - prec) with true in HR
      by (symmetry; apply Z.leb_le; unfold emax, prec; lia).
    eexists _, _, (Z.pos q). split; [exact HR|]. split; [exact Hm2|].
    right. split; [exact Htop|]. split; [reflexivity|reflexivity].
  - assert (Hdq : Z.pos (digits2_pos q) = 53).
    { apply digits2_pos_unique. change (53 - 1) with 52. lia. }
    unfold shr_fexp in HR. cbn [Zdigits2] in HR. rewrite Hdq in HR.
    rewrite fexp_normal in HR by lia.
    replace (53 + (e + (D - 53)) - 53 - (e + (D - 53))) with 0 in HR by lia.
    cbn [shr shr_record_of_loc shr_m] in HR.
    replace (e + (D - 53) <=? emax - prec) with true in HR
      by (symmetry; apply Z.leb_le; unfold emax, prec; lia).
    eexists _, _, (Z.pos q). split; [exact HR|]. split; [exact Hm2|].
    left. split; reflexivity.
Qed.

(** A significand of exactly 53 digits is kept as it is. *)
Lemma binary_round_aux_exact (m : positive) (e : Z) :
  Z.pos (digits2_pos m) = 53 -> -1074 <= e <= 971 ->
  binary_round_aux prec emax false (Z.pos m) e loc_Exact = S754_finite false m e.
Proof.
  intros Hd He. unfold binary_round_aux, shr_fexp. cbn [Zdigits2]. rewrite Hd.
  rewrite fexp_normal by lia. replace (53 + e - 53 - e) with 0 by lia.
  cbn [shr shr_record_of_loc shr_m loc_of_shr_record round_nearest_even Zdigits2].
  rewrite Hd. rewrite fexp_normal by lia. replace (53 + e - 53 - e) with 0 by lia.
  cbn [shr shr_record_of_loc shr_m].
  replace (e <=? emax - prec) with true
    by (symmetry; apply Z.leb_le; unfold emax, prec; lia).
  reflexivity.
Qed.

Lemma valid_binary_53 (m : positive) (e : Z) :
  Z.pos (digits2_pos m) = 53 -> -1074 <= e <= 971 ->
  valid_binary (S754_finite false m e) = true.
Proof.
  intros Hd He. cbn [SpecFloat.valid_binary]. unfold bounded, canonical_mantissa.
  rewrite Hd, fexp_normal by lia.
  apply andb_true_intro. split; [apply Z.eqb_eq; lia|apply Z.leb_le; unfold emax, prec; lia].
Qed.

(** [float(a)] for an int of at most 52 bits: the int itself, its
    significand moved up to 53 digits. *)
Lemma float_of_int_small (pa : positive) :
  Z.pos (digits2_pos pa) <= 52 ->
  Prim2SF (float_of_int (Z.pos pa)) =
  S754_finite false (Pos.iter xO pa (Z.to_pos (53 - Z.pos (digits2_pos pa))))
    (Z.pos (digits2_pos pa) - 53) /\
  Z.pos (digits2_pos (Pos.iter xO pa (Z.to_pos (53 - Z.pos (digits2_pos pa))))) = 53.
Proof.
  intros Hd. set (d := Z.pos (digits2_pos pa)) in *.
  pose proof (digits2_pos_bounds pa) as Hpa. fold d in Hpa.
  assert (Hd0 : 0 < d) by (unfold d; lia).
  set (mz := Pos.iter xO pa (Z.to_pos (53 - d))).
  assert (Hmz : Z.pos mz = Z.pos pa * 2 ^ (53 - d)).
  { unfold mz. rewrite iter_xO_mul, Z2Pos.id by lia. reflexivity. }
  assert (Hdz : Z.pos (digits2_pos mz) = 53).
  { apply digits2_pos_unique. rewrite Hmz. change (53 - 1) with 52. split.
    - replace 52 with ((d - 1) + (53 - d)) by lia. rewrite Z.pow_add_r by lia.
      apply Z.mul_le_mono_nonneg_r; [apply Z.pow_nonneg|]; lia.
    - replace 53 with (d + (53 - d)) at 2 by lia. rewrite Z.pow_add_r by lia.
      apply Z.mul_lt_mono_pos_r; [apply Z.pow_pos_nonneg|]; lia. }
  split; [|exact Hdz].
  assert (Hn : binary_normalize prec emax (Z.pos pa) 0 false = S754_finite false mz (d - 53)).
  { cbn [binary_normalize]. unfold binary_round. fold d.
    rewrite fexp_normal by lia. unfold shl_align.
    replace (d + 0 - 53 - 0) with (Z.neg (Z.to_pos (53 - d))) by lia.
    fold mz. replace (d + 0 - 53) with (d - 53) by lia.
    apply binary_round_aux_exact; [exact Hdz|lia]. }
  unfold float_of_int. rewrite Hn.
  apply Prim2SF_SF2Prim. apply valid_binary_53; [exact Hdz|lia].
Qed.

(** The arithmetic behind [int(a * 1.3)]: [M] is the significand of the
    binary64 nearest to 1.3, [10 * M = 13 * 2^52 + 2]. *)
Lemma thirteen_tenths_core (a u pn pk m2 : Z) :
  0 < a -> 32 <= u -> a * u < 9007199254740992 ->
  0 < pn <= 9007199254740992 -> 0 < pk ->
  pk * pn = u * 4503599627370496 ->
  a * u * 5854679515581645 / pn <= m2 <= a * u * 5854679515581645 / pn + 1 ->
  m2 / pk = 13 * a / 10.
Proof.
  intros Ha Hu Hau Hpn Hpk Hprod Hm2.
  set (N := 13 * a / 10).
  assert (HN : 10 * N <= 13 * a < 10 * N + 10).
  { unfold N. pose proof (Z.mul_div_le (13 * a) 10 ltac:(lia)).
    pose proof (Z.mul_succ_div_gt (13 * a) 10 ltac:(lia)). lia. }
  set (t := a * u) in *. set (s := N * u).
  assert (Hs : 10 * s <= 13 * t /\ 13 * t + u <= 10 * s + 10 * u).
  { unfold s, t. nia. }
  set (m1 := t * 5854679515581645 / pn) in *.
  assert (Hlo : N * pk <= m1).
  { unfold m1. apply Z.div_le_lower_bound; [lia|].
    replace (pn * (N * pk)) with (N * (pk * pn)) by ring. rewrite Hprod.
    replace (N * (u * 4503599627370496)) with (s * 4503599627370496) by (unfold s; ring).
    lia. }
  assert (Hhi : m1 < (N + 1) * pk - 1).
  { unfold m1. apply Z.div_lt_upper_bound; [lia|].
    replace (pn * ((N + 1) * pk - 1)) with ((N + 1) * (pk * pn) - pn) by ring.
    rewrite Hprod.
    replace ((N + 1) * (u * 4503599627370496)) with ((s + u) * 4503599627370496)
      by (unfold s; ring).
    lia. }
  symmetry. apply (Z.div_unique m2 pk N (m2 - pk * N)); lia.
Qed.

Lemma thirteen_tenths_bits :
  Prim2SF Tile.thirteen_tenths = S754_finite false 5854679515581645 (-52).
Proof. vm_compute. reflexivity. Qed.

(** [int(a * 1.3)] in binary64 for an int below 2^48: the rounding of the
    product never reaches the integer part, which is that of [13 * a / 10]. *)
Lemma size_small (a : Z) :
  0 <= a < 2 ^ 48 ->
  int (float_of_int a * Tile.thirteen_tenths) = Return (13 * a / 10).
Proof.
  intros [Ha0 Ha].
  destruct a as [|pa|pa]; [vm_compute; reflexivity| |lia].
  pose proof (digits2_pos_bounds pa) as Hpa.
  set (d := Z.pos (digits2_pos pa)) in *.
  assert (Hd0 : 0 < d) by (unfold d; lia).
  assert (Hd : d <= 48).
  { assert (d - 1 < 48); [|lia]. apply (Z.pow_lt_mono_r_iff 2); lia. }
  destruct (float_of_int_small pa ltac:(fold d; lia)) as [Hf Hdz]. fold d in Hf, Hdz.
  set (mz := Pos.iter xO pa (Z.to_pos (53 - d))) in *.
  assert (Hmz : Z.pos mz = Z.pos pa * 2 ^ (53 - d)).
  { unfold mz. rewrite iter_xO_mul, Z2Pos.id by lia. reflexivity. }
  pose proof (digits2_pos_bounds mz) as Hmzb. rewrite Hdz in Hmzb.
  change (53 - 1) with 52 in Hmzb.
  change (2 ^ 52) with 4503599627370496 in Hmzb.
  change (2 ^ 53) with 9007199254740992 in Hmzb.
  set (u := 2 ^ (53 - d)) in *.
  assert (Hu : 32 <= u).
  { change 32 with (2 ^ 5). unfold u. apply Z.pow_le_mono_r; lia. }
  set (P := (mz * 5854679515581645)%positive).
  assert (HP : Z.pos P = Z.pos pa * u * 5854679515581645).
  { unfold P. rewrite Pos2Z.inj_mul, Hmz. reflexivity. }
  pose proof (digits2_pos_bounds P) as HPb.
  set (D := Z.pos (digits2_pos P)) in *.
  assert (HPlo : 2 ^ 104 <= Z.pos P).
  { rewrite HP. change (2 ^ 104) with (4503599627370496 * 4503599627370496). nia. }
  assert (HPhi : Z.pos P < 2 ^ 106).
  { rewrite HP. change (2 ^ 106) with (9007199254740992 * 9007199254740992). nia. }
  assert (HD : 105 <= D <= 106).
  { assert (104 < D) by (apply (Z.pow_lt_mono_r_iff 2); lia).
    assert (D - 1 < 106) by (apply (Z.pow_lt_mono_r_iff 2); lia). lia. }
  unfold int. rewrite mul_spec, Hf, thirteen_tenths_bits.
  unfold SF64mul. cbn [SFmul xorb]. fold P.
  destruct (binary_round_aux_normal P (d - 53 + -52) ltac:(fold D; lia) ltac:(fold D; lia))
    as (m & e2 & m2 & HR & Hm2 & Hcase).
  fold D in Hm2, Hcase. rewrite HR. rewrite HP in Hm2.
  set (pn := 2 ^ (D - 53)) in *.
  assert (Hpn : 0 < pn <= 9007199254740992).
  { unfold pn. split; [apply Z.pow_pos_nonneg; lia|].
    change 9007199254740992 with (2 ^ 53). apply Z.pow_le_mono_r; lia. }
  set (k := 158 - d - D).
  assert (Hk : 4 <= k) by (unfold k; lia).
  assert (Hprod : 2 ^ k * pn = u * 4503599627370496).
  { unfold pn, u. change 4503599627370496 with (2 ^ 52).
    rewrite <- !Z.pow_add_r by lia. f_equal. unfold k. lia. }
  pose proof (thirteen_tenths_core (Z.pos pa) u pn (2 ^ k) m2 ltac:(lia) Hu ltac:(lia) Hpn
                ltac:(apply Z.pow_pos_nonneg; lia) Hprod Hm2) as Hcore.
  f_equal. destruct Hcase as [[Hm He2] | (Htop & Hm & He2)].
  - replace (0 <=? e2) with false by (symmetry; apply Z.leb_gt; lia).
    rewrite Hm. replace (- e2) with k by (unfold k; lia). exact Hcore.
  - replace (0 <=? e2) with false by (symmetry; apply Z.leb_gt; lia).
    rewrite Hm. replace (- e2) with (k - 1) by (unfold k; lia).
    rewrite <- Hcore, Htop.
    replace k with (1 + (k - 1)) at 2 by lia. rewrite Z.pow_add_r by lia.
    change (2 ^ 53) with (2 ^ 1 * 2 ^ 52).
    rewrite Z.div_mul_cancel_l; [reflexivity| |lia].
    apply Z.pow_nonzero; lia.
Qed.

(** ** [Tile.size] *)

(** C5 (as amended). For a tile of fewer than 2^48 pixels the size, computed
    in binary64 as the code does, is the pixel count times 13/10 rounded
    down, [int(height * width * 1.3)]: less than one byte below 1.3 bytes
    per pixel, and no factor is a parameter of it. *)
Theorem tile_size_is_truncated_thirteen_tenths (t : Tile.t) :
  0 <= fst (Tile.shape t) * snd (Tile.shape t) < 2 ^ 48 ->
  exists z : Z,
    Tile.size t = Return z /\
    z = 13 * ((stop (Tile.slice_y t) - start (Tile.slice_y t)) *
              (stop (Tile.slice_x t) - start (Tile.slice_x t))) / 10 /\
    0 <= 13 * (fst (Tile.shape t) * snd (Tile.shape t)) - 10 * z < 10.
Proof.
  intros Harea. set (a := fst (Tile.shape t) * snd (Tile.shape t)) in *.
  exists (13 * a / 10). split; [|split].
  - unfold Tile.size. fold a. apply size_small. exact Harea.
  - reflexivity.
  - pose proof (Z.mul_div_le (13 * a) 10 ltac:(lia)).
    pose proof (Z.mul_succ_div_gt (13 * a) 10 ltac:(lia)). lia.
Qed.

(** A tile of 2896 x 1200 pixels: 3475200 pixels, size 4517760. *)
Lemma tile_size_is_truncated_thirteen_tenths_witness :
  exists z : Z,
    Tile.size (Fixtures.tile_of (4096, 4096) 0 2896 2896 4096) = Return z /\
    z = 13 * ((2896 - 0) * (4096 - 2896)) / 10 /\
    0 <= 13 * (2896 * 1200) - 10 * z < 10.
Proof.
  apply (tile_size_is_truncated_thirteen_tenths
           (Fixtures.tile_of (4096, 4096) 0 2896 2896 4096)).
  vm_compute. split; [discriminate|reflexivity].
Defined.

(** Beyond 2^48 pixels the rounding of the product shows: a strip of
    1 x 1000000000000003 pixels has size 1300000000000004, one more than
    the integer part of 13/10 of its pixel count. *)
Lemma tile_size_rounds_on_huge_tiles :
  Tile.size (Fixtures.tile_of (1, 1000000000000003) 0 1 0 1000000000000003) =
  Return 1300000000000004 /\
  13 * (1 * 1000000000000003) / 10 = 1300000000000003.
Proof. split; vm_compute; reflexivity. Qed.

(** C5 (counterexample). No factor makes the size equal to
    [height * width * 2 * factor] for every tile: the tile of one pixel has
    size 1 and the tile of four pixels has size 5. Nor is the difference one
    of rounding: a tile of 10 x 10 pixels has size 130, which is 270 below
    the formula with the factor 2 of the band estimate and at least 70 below
    it with any factor from 1 on. *)
Lemma tile_size_is_not_twice_a_factor :
  (~ exists overhead : Q,
       forall (t : Tile.t) (z : Z),
         Tile.size t = Return z ->
         inject_Z z ==
         inject_Z (fst (Tile.shape t) * snd (Tile.shape t)) * 2 * overhead) /\
  Tile.size (Fixtures.tile_of (10, 10) 0 10 0 10) = Return 130 /\
  130 + 270 = 10 * 10 * 2 * GEES2Downloader.default_excess_factor /\
  (forall (overhead : Q) (z : Z),
     (1 <= overhead)%Q ->
     Tile.size (Fixtures.tile_of (10, 10) 0 10 0 10) = Return z ->
     (inject_Z z + 70 <= inject_Z 100 * 2 * overhead)%Q).
Proof.
  split; [|split; [vm_compute; reflexivity|split; [reflexivity|]]].
  - intros [[num den] H].
    pose proof (H (Fixtures.tile_of (1, 1) 0 1 0 1) 1 ltac:(vm_compute; reflexivity)) as H1.
    pose proof (H (Fixtures.tile_of (1, 4) 0 1 0 4) 5 ltac:(vm_compute; reflexivity)) as H4.
    change (fst (Tile.shape (Fixtures.tile_of (1, 1) 0 1 0 1)) *
            snd (Tile.shape (Fixtures.tile_of (1, 1) 0 1 0 1))) with 1 in H1.
    change (fst (Tile.shape (Fixtures.tile_of (1, 4) 0 1 0 4)) *
            snd (Tile.shape (Fixtures.tile_of (1, 4) 0 1 0 4))) with 4 in H4.
    unfold Qeq in H1, H4. cbn [Qmult Qnum Qden inject_Z] in H1, H4. lia.
  - intros [num den] z Hov Hz.
    assert (Hsize : Tile.size (Fixtures.tile_of (10, 10) 0 10 0 10) = Return 130)
      by (vm_compute; reflexivity).
    rewrite Hsize in Hz. injection Hz as <-.
    unfold Qle in *. cbn [Qmult Qplus Qnum Qden inject_Z Z.mul Pos.mul] in *. lia.
Qed.

(** ** [open_url] and [open_zip_url] *)

(** The loop of [open_url] gathers the chunks in order and advances the bar
    by 1024 for every chunk that is not empty. *)
Lemma read_chunks_run chunks : forall mem_file p,
  common.read_chunks chunks mem_file (Some p) =
  (mem_file ++ concat chunks,
   Some {| tqdm.n := tqdm.n p + 1024 * nonempty_chunks chunks;
           tqdm.total := tqdm.total p |}).
Proof.
  unfold nonempty_chunks.
  induction chunks as [|chunk chunks IH]; intros mem_file p.
  - cbn. rewrite app_nil_r, Z.add_0_r. destruct p; reflexivity.
  - destruct chunk as [|b chunk].
    + cbn [common.read_chunks List.filter concat app]. apply IH.
    + cbn [common.read_chunks List.filter concat]. rewrite IH.
      cbn [tqdm.update tqdm.n tqdm.total length].
      rewrite <- app_assoc. do 3 f_equal. lia.
Qed.

Lemma open_url_run w url session p chunks :
  requests.get (match session with Some s => s | None => requests_module w end) url 1024
    = Return chunks ->
  common.open_url w url session (Some p) =
  Return (concat chunks,
          {| tqdm.n := Z.max (tqdm.n p + 1024 * nonempty_chunks chunks) (tqdm.total p);
             tqdm.total := tqdm.total p |}).
Proof.
  intros Hget. unfold common.open_url. rewrite Hget. cbn [obind].
  rewrite read_chunks_run. cbn [app tqdm.n tqdm.total].
  destruct (Z.ltb_spec (tqdm.n p + 1024 * nonempty_chunks chunks) (tqdm.total p)).
  - unfold tqdm.update. cbn [tqdm.n tqdm.total]. do 3 f_equal. lia.
  - do 3 f_equal. lia.
Qed.

(** C6 (as amended). With a progress bar [p], [open_url] returns the chunks
    of the body in order, advances the counter by 1024 for every chunk that
    is not empty, whatever its length, and at the end raises the counter to
    the total only when it is below it: the final counter is the greater of
    [n + 1024 * chunks] and [total]. *)
Theorem open_url_counter_advances_by_1024 w url session p chunks :
  requests.get (match session with Some s => s | None => requests_module w end) url 1024
    = Return chunks ->
  snd (common.read_chunks chunks [] (Some p)) =
    Some {| tqdm.n := tqdm.n p + 1024 * nonempty_chunks chunks;
            tqdm.total := tqdm.total p |} /\
  common.open_url w url session (Some p) =
    Return (concat chunks,
            {| tqdm.n := Z.max (tqdm.n p + 1024 * nonempty_chunks chunks) (tqdm.total p);
               tqdm.total := tqdm.total p |}).
Proof.
  intros Hget. split.
  - rewrite read_chunks_run. reflexivity.
  - apply open_url_run. exact Hget.
Qed.

(** One chunk of three bytes, a bar at 0 of 5000: the counter ends at 5000. *)
Lemma open_url_counter_advances_by_1024_witness :
  common.open_url Fixtures.world "https://ee/0,0" None
    (Some {| tqdm.n := 0; tqdm.total := 5000 |}) =
  Return (Fixtures.payload, {| tqdm.n := 5000; tqdm.total := 5000 |}).
Proof.
  exact (proj2 (open_url_counter_advances_by_1024 Fixtures.world "https://ee/0,0" None
                  {| tqdm.n := 0; tqdm.total := 5000 |} [Fixtures.payload] eq_refl)).
Defined.

(** C6 (counterexample). A body of one chunk of three bytes and a bar at 0
    of 10: after the loop the counter is 1024, not 3, and the call ends with
    the counter at 1024, not at the total 10. *)
Lemma open_url_counter_is_neither_length_nor_total :
  let p := {| tqdm.n := 0; tqdm.total := 10 |} in
  requests.get (requests_module Fixtures.world) "https://ee/0,0" 1024
    = Return [Fixtures.payload] /\
  snd (common.read_chunks [Fixtures.payload] [] (Some p)) <>
    Some {| tqdm.n := tqdm.n p + Z.of_nat (length Fixtures.payload);
            tqdm.total := tqdm.total p |} /\
  exists mem_file p',
    common.open_url Fixtures.world "https://ee/0,0" None (Some p) = Return (mem_file, p') /\
    tqdm.n p' = 1024 /\ tqdm.n p' <> tqdm.total p'.
Proof.
  cbv zeta. split; [reflexivity|]. split; [discriminate|].
  eexists _, _. split; [reflexivity|]. split; [reflexivity | discriminate].
Qed.

Lemma read_chunks_without_bar chunks : forall mem_file,
  common.read_chunks chunks mem_file None = (mem_file ++ concat chunks, None).
Proof.
  induction chunks as [|[|b chunk] chunks IH]; intros mem_file.
  - cbn. rewrite app_nil_r. reflexivity.
  - cbn [common.read_chunks concat app]. apply IH.
  - cbn [common.read_chunks concat]. rewrite IH, <- app_assoc. reflexivity.
Qed.

(** Without a progress bar [open_url] reads the whole body and then raises:
    the test after the loop reads [pbar.n] unguarded. *)
Lemma open_url_without_bar_raises w url session chunks :
  requests.get (match session with Some s => s | None => requests_module w end) url 1024
    = Return chunks ->
  common.open_url w url session None =
  Raise (AttributeError "'NoneType' object has no attribute 'n'").
Proof.
  intros Hget. unfold common.open_url. rewrite Hget. cbn [obind].
  rewrite read_chunks_without_bar. reflexivity.
Qed.

Lemma open_zip_url_returns_first_entry_run w url session p chunks z first others data :
  requests.get (match session with Some s => s | None => requests_module w end) url 1024
    = Return chunks ->
  ZipFile w (concat chunks) = Return z ->
  zipfile.filelist z = first :: others ->
  zipfile.read z first = Return data ->
  common.open_zip_url w url session (Some p) =
  Return (data,
          {| tqdm.n := Z.max (tqdm.n p + 1024 * nonempty_chunks chunks) (tqdm.total p);
             tqdm.total := tqdm.total p |}).
Proof.
  intros Hget Hzip Hlist Hread.
  unfold common.open_zip_url.
  rewrite (open_url_run w url session p chunks Hget). cbn [obind].
  rewrite Hzip. cbn [obind]. rewrite Hlist, Hread. reflexivity.
Qed.

(** C10. Called with its default [pbar=None], [open_zip_url] returns no
    entry: whenever the request gives a body, whatever archive it holds,
    [open_url] reads the body to the end and then raises [AttributeError] on
    the unguarded [pbar.n], so the archive is never opened. The update
    inside the loop is guarded by [if pbar is not None]; the test after the
    loop is not. With a progress bar the first entry does come back
    ([open_zip_url_returns_first_entry_run]). *)
Theorem open_zip_url_default_bar_raises w url session chunks :
  requests.get (match session with Some s => s | None => requests_module w end) url 1024
    = Return chunks ->
  common.open_zip_url w url session None =
    Raise (AttributeError "'NoneType' object has no attribute 'n'") /\
  forall r, common.open_zip_url w url session None <> Return r.
Proof.
  intros Hget.
  assert (Hrun : common.open_zip_url w url session None =
                 Raise (AttributeError "'NoneType' object has no attribute 'n'")).
  { unfold common.open_zip_url.
    rewrite (open_url_without_bar_raises w url session chunks Hget). reflexivity. }
  split; [exact Hrun|]. intros r. rewrite Hrun. discriminate.
Qed.

(** A body that is an archive of one readable entry, fetched with the
    defaults of [open_zip_url]: no session, no progress bar. *)
Lemma open_zip_url_default_bar_raises_witness :
  (exists z first,
     ZipFile Fixtures.world (concat [Fixtures.payload]) = Return z /\
     zipfile.filelist z = [first] /\
     zipfile.read z first = Return Fixtures.payload) /\
  common.open_zip_url Fixtures.world "https://ee/0,0" None None =
    Raise (AttributeError "'NoneType' object has no attribute 'n'").
Proof.
  split.
  - eexists _, _. repeat split.
  - exact (proj1 (open_zip_url_default_bar_raises Fixtures.world "https://ee/0,0" None
                    [Fixtures.payload] eq_refl)).
Defined.

(** ** [create_geometry] *)

Section GeometryFacts.

Context {point : Type} (point_ne : point -> point -> bool).
Context (is_valid : @common.geometry point -> bool).

(** C8. When the argument is a list whose first and last points differ,
    [create_geometry] appends the first point to that very list: after the
    call the caller's list is the old one followed by its first point, one
    element longer, and every other list of the store is as it was. This
    holds whether or not the polygon is valid and whatever the logger. *)
Theorem create_geometry_appends_to_callers_list
  (l : nat) (first : point) (rest : list point) (logger : option string)
  (heap : gmap nat (list point)) (console : list event) :
  heap !! l = Some (first :: rest) ->
  point_ne first (List.last rest first) = true ->
  let r := common.create_geometry point_ne is_valid (common.ListRef l) logger
             (heap, console) in
  fst (snd r) !! l = Some ((first :: rest) ++ [first]) /\
  (forall pts, fst (snd r) !! l = Some pts -> length pts = S (length (first :: rest))) /\
  (forall l', l' <> l -> fst (snd r) !! l' = heap !! l').
Proof.
  intros Hheap Hne r.
  assert (Hstore : fst (snd r) = <[l := (first :: rest) ++ [first]]> heap).
  { subst r. unfold common.create_geometry.
    unfold bind at 1. unfold bind at 1. unfold get_state at 1.
    cbn [fst snd]. rewrite Hheap, Hne.
    unfold bind at 1. unfold modify at 1. unfold bind at 1. unfold get_state at 1.
    cbn [fst snd]. rewrite lookup_insert_eq. unfold ret at 1.
    destruct (is_valid (common.Polygon [(first :: rest) ++ [first]])).
    - reflexivity.
    - destruct logger; reflexivity. }
  rewrite Hstore. repeat split.
  - apply lookup_insert_eq.
  - intros pts Hpts. rewrite lookup_insert_eq in Hpts.
    injection Hpts as <-. cbn [app length]. rewrite length_app. cbn [length]. lia.
  - intros l' Hl'. apply lookup_insert_ne. congruence.
Qed.

End GeometryFacts.

(** An open triangle at address 0, with a second list at address 1. *)
Lemma create_geometry_appends_to_callers_list_witness :
  let heap : gmap nat (list (Z * Z)) :=
    <[0%nat := [(0, 0); (4, 0); (4, 3)]]> (<[1%nat := [(9, 9)]]> ∅) in
  let r := common.create_geometry
             (fun a b => negb ((fst a =? fst b) && (snd a =? snd b)))
             (fun _ => true) (common.ListRef 0) None (heap, []) in
  fst (snd r) !! 0%nat = Some [(0, 0); (4, 0); (4, 3); (0, 0)] /\
  fst (snd r) !! 1%nat = Some [(9, 9)].
Proof.
  intros heap r.
  destruct (create_geometry_appends_to_callers_list
              (fun a b : Z * Z => negb ((fst a =? fst b) && (snd a =? snd b)))
              (fun _ => true) 0%nat (0, 0) [(4, 0); (4, 3)] None heap [] eq_refl eq_refl)
    as (Hl & _ & Hother).
  split; [exact Hl|].
  exact (eq_trans (Hother 1%nat ltac:(discriminate)) eq_refl).
Defined.

(** ** [download] on a band that the image does not have *)

Lemma bandNames_contains_false img band :
  ~ In band (map ee.name img) -> ee.bandNames_contains img band = false.
Proof.
  intros Hnot. unfold ee.bandNames_contains.
  induction (map ee.name img) as [|b names IH]; cbn [existsb]; [reflexivity|].
  destruct (String.eqb_spec band b) as [->|_].
  - exfalso. apply Hnot. left. reflexivity.
  - apply IH. intros Hin. apply Hnot. right. exact Hin.
Qed.

(** The whole run of [download] in that case: three events, and nothing
    else. *)
Lemma download_missing_band_run w fuel img band st :
  ~ In band (map ee.name img) ->
  download w fuel img band st =
  (Return tt,
   (fst st,
    snd st ++ [Print "Retrieving band info"; GetInfo "bandNames.contains";
               LogError ("Image does not contain band " ++ band)])).
Proof.
  intros Hnot. unfold download.
  rewrite (bandNames_contains_false img band Hnot).
  unfold bind, emit, modify. cbn [fst snd].
  rewrite <- !app_assoc. reflexivity.
Qed.

(** C7. When the image does not contain the band, [download] reports it on
    the logger and returns without raising: what it does is one print, the
    one membership query and the error message; no task is submitted, no
    tile list is made and no array is stored. *)
Theorem download_missing_band_attempts_nothing w fuel img band st :
  ~ In band (map ee.name img) ->
  let r := download w fuel img band st in
  fst r = Return tt /\
  snd (snd r) =
    snd st ++ [Print "Retrieving band info"; GetInfo "bandNames.contains";
               LogError ("Image does not contain band " ++ band)] /\
  (forall region, In (Submit region) (snd (snd r)) -> In (Submit region) (snd st)) /\
  tiles (fst (snd r)) = tiles (fst st) /\
  array (fst (snd r)) = array (fst st).
Proof.
  intros Hnot r. subst r. rewrite (download_missing_band_run w fuel img band st Hnot).
  cbn [fst snd]. repeat split.
  intros region Hin. apply in_app_or in Hin as [Hold|Hnew]; [exact Hold|].
  cbn [In] in Hnew. destruct Hnew as [H|[H|[H|[]]]]; discriminate.
Qed.

(** Band "B8" asked of an image that only has "B4". *)
Lemma download_missing_band_attempts_nothing_witness :
  fst (download Fixtures.world 10 (Fixtures.image_of (100, 100)) "B8" Fixtures.fresh)
    = Return tt /\
  array (fst (snd (download Fixtures.world 10 (Fixtures.image_of (100, 100)) "B8"
                     Fixtures.fresh))) = None.
Proof.
  assert (Hnot : ~ In "B8"%string (map ee.name (Fixtures.image_of (100, 100)))).
  { cbn. intros [H|[]]. discriminate. }
  pose proof (download_missing_band_attempts_nothing Fixtures.world 10
                (Fixtures.image_of (100, 100)) "B8" Fixtures.fresh Hnot) as H.
  cbv zeta in H. destruct H as (Hout & _ & _ & _ & Harray).
  split; [exact Hout | exact Harray].
Defined.

(** C9. When the image does not contain the band, [download] leaves the
    downloader as it found it: [img], [band], [band_info] and [array] (and
    every other field) keep their values. *)
Theorem download_missing_band_keeps_fields w fuel img band st :
  ~ In band (map ee.name img) ->
  let self' := fst (snd (download w fuel img band st)) in
  GEES2Downloader.img self' = GEES2Downloader.img (fst st) /\
  GEES2Downloader.band self' = GEES2Downloader.band (fst st) /\
  band_info self' = band_info (fst st) /\
  array self' = array (fst st) /\
  self' = fst st.
Proof.
  intros Hnot self'. subst self'.
  rewrite (download_missing_band_run w fuel img band st Hnot).
  cbn [fst snd]. repeat split.
Qed.

(** An initialized downloader asked for a band that is not there keeps the
    band it had. *)
Lemma download_missing_band_keeps_fields_witness :
  band_info (fst (snd (download Fixtures.world 10 (Fixtures.image_of (100, 100)) "B8"
                         (Fixtures.initialized (64, 64))))) =
  Some (Fixtures.band_of (64, 64)).
Proof.
  assert (Hnot : ~ In "B8"%string (map ee.name (Fixtures.image_of (100, 100)))).
  { cbn. intros [H|[]]. discriminate. }
  pose proof (download_missing_band_keeps_fields Fixtures.world 10
                (Fixtures.image_of (100, 100)) "B8" (Fixtures.initialized (64, 64)) Hnot)
    as H.
  cbv zeta in H. destruct H as (_ & _ & Hbi & _).
  exact Hbi.
Defined.

(** ** [_download_band] when a fetch fails *)

Lemma submit_all_run w im bd session tiles : forall st,
  submit_all w im bd session tiles st =
  (Return (map (fun t => Tile.download w t im bd (Some session)) tiles),
   (fst st, snd st ++ map (fun t => Submit (Tile.slices t)) tiles)).
Proof.
  induction tiles as [|tile tiles IH]; intros st.
  - cbn. rewrite app_nil_r. destruct st; reflexivity.
  - cbn [submit_all map]. unfold bind at 1. unfold emit, modify.
    unfold bind at 1. rewrite IH. cbn [fst snd ret].
    rewrite <- app_assoc. reflexivity.
Qed.

Lemma workers_done_all workers : forall running,
  Forall (fun f => done f = true) workers ->
  fold_left (fun running w => running + (if done w then 1 else 0)) workers running =
  running + Z.of_nat (length workers).
Proof.
  induction workers as [|f workers IH]; intros running Hall; cbn [fold_left length].
  - lia.
  - inversion Hall as [|? ? Hf Hrest]; subst. rewrite IH by assumption.
    rewrite Hf. lia.
Qed.

(** The polling loop ends once every task has finished. *)
Lemma wait_done workers :
  Forall (fun f => done f = true) workers -> wait workers = Return tt.
Proof.
  intros Hall. unfold wait, _workers_done. rewrite workers_done_all by assumption.
  destruct (Z.ltb_spec (0 + Z.of_nat (length workers)) (Z.of_nat (length workers)));
    [lia | reflexivity].
Qed.

Lemma combine_map_self {A B : Type} (f : A -> B) (l : list A) :
  combine l (map f l) = map (fun a => (a, f a)) l.
Proof. induction l as [|a l IH]; cbn; [reflexivity | rewrite IH; reflexivity]. Qed.

(** Blocks that came back are written one after the other. *)
Lemma recreate_app (fetch : Tile.t -> Future) before : forall img_array rest,
  Forall (fun t => exists b, fetch t = Return b) before ->
  recreate img_array (map (fun t => (t, fetch t)) before ++ rest) =
  recreate (snd (recreate img_array (map (fun t => (t, fetch t)) before))) rest.
Proof.
  induction before as [|t before IH]; intros img_array rest Hall; [reflexivity|].
  inversion Hall as [|? ? [b Hb] Hrest]; subst.
  cbn [map app recreate]. rewrite Hb. apply IH. exact Hrest.
Qed.

(** A pixel that none of the tiles holds keeps its value through the loop. *)
Lemma recreate_untouched y x pairs : forall img_array,
  covering (map fst pairs) y x = 0%nat ->
  np.item (snd (recreate img_array pairs)) y x = np.item img_array y x.
Proof.
  induction pairs as [|[t f] pairs IH]; intros img_array Hcov; [reflexivity|].
  cbn [map fst covering] in Hcov.
  destruct (covers t y x) eqn:Hcovers; [lia|].
  cbn [recreate]. destruct f as [b|e|]; [|reflexivity|reflexivity].
  rewrite IH by lia.
  unfold np.setitem, np.in_slice, Tile.slices. cbn [np.item np.shape fst snd].
  unfold covers in Hcovers. revert Hcovers. zbool; discriminate.
Qed.

(** On an initialized downloader [_create_tiles] only reads the state. *)
Lemma create_tiles_keeps_state w fuel max_size st bi :
  band_info (fst st) = Some bi -> snd (_create_tiles w fuel max_size st) = st.
Proof.
  intros Hbi.
  unfold _create_tiles, _estimate_band_size, bind, get_state, lift, ret, raise.
  cbv beta. rewrite !Hbi. cbv beta.
  repeat match goal with
  | |- context [match ?o with Return _ => _ | Raise _ => _ | OutOfFuel => _ end] =>
      destruct o
  | |- context [if ?c then _ else _] => destruct c
  end; reflexivity.
Qed.

(** The pool is made when it is given at least one worker. *)
Lemma executor_run n : 0 < n -> futures.ThreadPoolExecutor n = Return tt.
Proof.
  intros Hn. unfold futures.ThreadPoolExecutor.
  destruct (Z.leb_spec n 0); [lia | reflexivity].
Qed.

(** C3 (as amended). With a pool of at least one worker, when every task
    finishes and the fetch of some tile fails, the blocks before it having
    come back, [_download_band] ends with the exception of that fetch and
    returns no array: reading the result of the failed task raises inside
    the loop, the loop stops there, the local array holds only the blocks of
    the tiles before the failed one (every pixel outside them is still zero,
    also in the tiles after it whose fetch succeeded), and the downloader's
    [array] is what it was. *)
Theorem download_band_stops_at_first_failed_tile
  w fuel st bi tiles before tile e after :
  band_info (fst st) = Some bi ->
  0 < max_workers (fst st) ->
  fst (_create_tiles w fuel default_max_size st) = Return (Some tiles) ->
  tiles = before ++ tile :: after ->
  let fetch := fun t =>
    Tile.download w t (img (fst st)) (band (fst st))
      (Some (common.requests_retry_session w 5 0x1.3333333333333p-2%float
               [500; 502; 503; 504])) in
  Forall (fun t => exists b, fetch t = Return b) before ->
  fetch tile = Raise e ->
  Forall (fun t => fetch t <> OutOfFuel) after ->
  let r := _download_band w fuel st in
  let local := snd (recreate (np.zeros (dimensions bi)) (combine tiles (map fetch tiles))) in
  fst r = Raise e /\
  array (fst (snd r)) = array (fst st) /\
  local = snd (recreate (np.zeros (dimensions bi)) (combine before (map fetch before))) /\
  (forall y x, covering before y x = 0%nat -> np.item local y x = 0).
Proof.
  intros Hbi Hpool Htiles Hsplit fetch Hbefore Htile Hafter r local.
  assert (Hloop : recreate (np.zeros (dimensions bi)) (combine tiles (map fetch tiles)) =
                  (Raise e, snd (recreate (np.zeros (dimensions bi))
                                   (combine before (map fetch before))))).
  { rewrite !combine_map_self, Hsplit, map_app. cbn [map].
    rewrite recreate_app by exact Hbefore. cbn [recreate]. rewrite Htile. reflexivity. }
  assert (Hdone : Forall (fun f => done f = true) (map fetch tiles)).
  { rewrite Hsplit, map_app. cbn [map]. apply Forall_app. split; [|constructor].
    - apply List.Forall_map. eapply List.Forall_impl; [|exact Hbefore].
      intros t [b Hb]. change (done (fetch t) = true). rewrite Hb. reflexivity.
    - rewrite Htile. reflexivity.
    - apply List.Forall_map. eapply List.Forall_impl; [|exact Hafter].
      intros t Ht. change (done (fetch t) = true).
      destruct (fetch t) eqn:Hf; [reflexivity | reflexivity | exfalso; exact (Ht Hf)]. }
  assert (Hrun : r = (Raise e,
                      (let self := fst st in
                       {| img := img self; band := band self; band_info := band_info self;
                          array := array self; tiles := Some tiles;
                          max_workers := max_workers self |},
                       (snd st ++
                        [Print ("Dividing band in " ++ str (Z.of_nat (length tiles)) ++ " tiles")])
                        ++ map (fun t => Submit (Tile.slices t)) tiles))).
  { subst r. unfold _download_band.
    unfold bind at 1. unfold get_state at 1. rewrite Hbi.
    pose proof (create_tiles_keeps_state w fuel default_max_size st bi Hbi) as Hkeep.
    unfold bind at 1.
    destruct (_create_tiles w fuel default_max_size st) as [o st1].
    cbn [fst snd] in Htiles, Hkeep. subst o st1.
    unfold bind at 1. unfold set_tiles at 1. unfold modify at 1.
    unfold bind at 1. unfold emit at 1. unfold modify at 1.
    unfold bind at 1. unfold get_state at 1. cbn [fst snd].
    unfold bind at 1. unfold lift at 1. cbn [max_workers].
    rewrite executor_run by exact Hpool.
    unfold bind at 1. rewrite submit_all_run. cbn [fst snd].
    unfold bind at 1. unfold lift at 1.
    rewrite wait_done by exact Hdone.
    match goal with
    | |- context [recreate ?a ?pairs] =>
        change (recreate a pairs)
          with (recreate (np.zeros (dimensions bi)) (combine tiles (map fetch tiles)))
    end.
    rewrite Hloop, ?Hbi. reflexivity. }
  split; [rewrite Hrun; reflexivity|].
  split; [rewrite Hrun; reflexivity|].
  subst local. rewrite Hloop. cbn [snd]. split; [reflexivity|].
  intros y x Hcov.
  rewrite recreate_untouched; [reflexivity|].
  rewrite combine_map_self, map_map. cbn [fst]. rewrite map_id. exact Hcov.
Qed.

(** A band of 4096 x 4096 pixels makes four tiles; the fetch of the second
    one fails. *)
Lemma download_band_stops_at_first_failed_tile_witness :
  fst (_download_band (Fixtures.world_failing "https://ee/0,2896") 10
         (Fixtures.ready (4096, 4096))) = Raise (External "ConnectionError").
Proof.
  pose proof (download_band_stops_at_first_failed_tile
                (Fixtures.world_failing "https://ee/0,2896") 10
                (Fixtures.ready (4096, 4096)) (Fixtures.scaled_band_of (4096, 4096))
                [Fixtures.tile_of (4096, 4096) 0 2896 0 2896;
                 Fixtures.tile_of (4096, 4096) 0 2896 2896 4096;
                 Fixtures.tile_of (4096, 4096) 2896 4096 0 2896;
                 Fixtures.tile_of (4096, 4096) 2896 4096 2896 4096]
                [Fixtures.tile_of (4096, 4096) 0 2896 0 2896]
                (Fixtures.tile_of (4096, 4096) 0 2896 2896 4096)
                (External "ConnectionError")
                [Fixtures.tile_of (4096, 4096) 2896 4096 0 2896;
                 Fixtures.tile_of (4096, 4096) 2896 4096 2896 4096]
                eq_refl ltac:(cbn; lia)) as H.
  cbv zeta in H.
  refine (proj1 (H _ eq_refl _ _ _)).
  - vm_compute. reflexivity.
  - constructor; [|constructor]. eexists. vm_compute. reflexivity.
  - vm_compute. reflexivity.
  - repeat constructor; vm_compute; discriminate.
Defined.

(** C3 (counterexample). Four tiles, the fetch of the first one fails and
    the three others come back as blocks of sevens: [download] ends with the
    exception of the failed fetch, it stores no array, and in the local array
    of the loop the pixel (0, 3000), which the second tile holds, is still 0
    and not 7. *)
Lemma one_failed_fetch_aborts_the_assembly :
  let w := Fixtures.world_failing "https://ee/0,0" in
  let r := download w 10 (Fixtures.image_of (4096, 4096)) "B4" Fixtures.fresh in
  let t0 := Fixtures.tile_of (4096, 4096) 0 2896 0 2896 in
  let t1 := Fixtures.tile_of (4096, 4096) 0 2896 2896 4096 in
  let t2 := Fixtures.tile_of (4096, 4096) 2896 4096 0 2896 in
  let t3 := Fixtures.tile_of (4096, 4096) 2896 4096 2896 4096 in
  let fetch := fun t =>
    Tile.download w t (img (fst (snd r))) (band (fst (snd r)))
      (Some (common.requests_retry_session w 5 0x1.3333333333333p-2%float
               [500; 502; 503; 504])) in
  fst r = Raise (External "ConnectionError") /\
  array (fst (snd r)) = None /\
  tiles (fst (snd r)) = Some [t0; t1; t2; t3] /\
  fetch t0 = Raise (External "ConnectionError") /\
  (exists b, fetch t1 = Return b /\ b 0 104 = 7) /\
  covers t1 0 3000 = true /\
  np.item (snd (recreate (np.zeros (4096, 4096))
                  (combine [t0; t1; t2; t3] (map fetch [t0; t1; t2; t3])))) 0 3000 = 0.
Proof.
  cbv zeta. repeat split; try (vm_compute; reflexivity).
  eexists. split; vm_compute; reflexivity.
Qed.

(* ===================================================================== *)
(** * Part III: further properties of the same code *)
(* ===================================================================== *)

(** ** More on [_create_tiles] *)

(** A band of 4096 x 4096 pixels under the default budget: both steps are
    2896, and the four tiles are a partition. *)
Lemma create_tiles_partition_of_positive_steps_witness :
  exists tiles,
    _create_tiles Fixtures.world (Z.to_nat 8194) default_max_size
      (Fixtures.initialized (4096, 4096)) =
      (Return (Some tiles), Fixtures.initialized (4096, 4096)) /\
    partition (4096, 4096) tiles.
Proof.
  apply (create_tiles_partition_of_positive_steps Fixtures.world default_max_size
           (Fixtures.initialized (4096, 4096)) (Fixtures.band_of (4096, 4096))
           0.5%float 0x1.6a09e667f3bcdp-1%float);
    try (vm_compute; reflexivity);
    try (cbn [Fixtures.band_of data_type dimensions dt_min dt_max fst snd]; lia).
  right. exists 2896, 2896. repeat split; try (vm_compute; reflexivity); lia.
Defined.

Lemma cdiv_step a b : 0 < b -> 0 < a -> Z.to_nat (cdiv a b) = S (Z.to_nat (cdiv (a - b) b)).
Proof.
  intros Hb Ha. unfold cdiv.
  replace (a + b - 1) with (a - b + b - 1 + 1 * b) by lia.
  rewrite Z.div_add by lia.
  assert (0 <= (a - b + b - 1) / b) by (apply Z.div_pos; lia).
  lia.
Qed.

Lemma cdiv_nonpos a b : 0 < b -> a <= 0 -> Z.to_nat (cdiv a b) = 0%nat.
Proof.
  intros Hb Ha. unfold cdiv.
  assert ((a + b - 1) / b < 1); [|lia].
  apply Z.div_lt_upper_bound; lia.
Qed.

Section SweepCount.

Variable bi : BandInfo.
Variable dimension : Z * Z.
Variables step_y step_x : Z.
Hypothesis step_y_pos : 0 < step_y.
Hypothesis step_x_pos : 0 < step_x.

Lemma while_j_row_count n : forall fuel i j tiles,
  (Z.to_nat (snd dimension - j) <= n)%nat -> (n < fuel)%nat ->
  exists row,
    while_j fuel bi dimension step_y step_x i j tiles = Return (tiles ++ row) /\
    length row = Z.to_nat (cdiv (snd dimension - j) step_x) /\
    Forall (fits_steps step_y step_x) row.
Proof.
  induction n as [|n IH]; intros fuel i j tiles Hn Hfuel.
  - destruct fuel as [|fuel]; [lia|]. cbn [while_j].
    destruct (Z.ltb_spec j (snd dimension)) as [Hlt|Hge]; [lia|].
    exists []. rewrite app_nil_r, cdiv_nonpos by lia. repeat split. constructor.
  - destruct fuel as [|fuel]; [lia|]. cbn [while_j].
    destruct (Z.ltb_spec j (snd dimension)) as [Hlt|Hge].
    + match goal with
      | |- context [while_j fuel bi dimension step_y step_x i (j + step_x) ?acc] =>
          destruct (IH fuel i (j + step_x) acc) as (row & Hrun & Hlen & Hfit); try lia
      end.
      eexists (_ :: row). rewrite Hrun, <- app_assoc. cbn [app length].
      repeat split.
      * rewrite Hlen, (cdiv_step (snd dimension - j)) by lia.
        do 3 f_equal. lia.
      * constructor; [|exact Hfit].
        unfold fits_steps, Tile.shape; cbn [Tile.slice_y Tile.slice_x start stop fst snd].
        rewrite !clip_min. lia.
    + exists []. rewrite app_nil_r, cdiv_nonpos by lia. repeat split. constructor.
Qed.

Lemma while_i_rows_count n : forall fuel i tiles,
  (Z.to_nat (fst dimension - i) <= n)%nat ->
  (n + Z.to_nat (snd dimension) + 1 < fuel)%nat ->
  exists rows,
    while_i fuel bi dimension step_y step_x i tiles = Return (tiles ++ rows) /\
    length rows =
      (Z.to_nat (cdiv (fst dimension - i) step_y) * Z.to_nat (cdiv (snd dimension) step_x))%nat /\
    Forall (fits_steps step_y step_x) rows.
Proof.
  induction n as [|n IH]; intros fuel i tiles Hn Hfuel.
  - destruct fuel as [|fuel]; [lia|]. cbn [while_i].
    destruct (Z.ltb_spec i (fst dimension)) as [Hlt|Hge]; [lia|].
    exists []. rewrite app_nil_r, cdiv_nonpos by lia. repeat split. constructor.
  - destruct fuel as [|fuel]; [lia|]. cbn [while_i].
    destruct (Z.ltb_spec i (fst dimension)) as [Hlt|Hge].
    + destruct (while_j_row_count (Z.to_nat (snd dimension)) fuel i 0 tiles)
        as (row & Hrow & Hlen_row & Hfit_row); try lia.
      rewrite Hrow. cbn [obind].
      destruct (IH fuel (i + step_y) (tiles ++ row))
        as (rows & Hrows & Hlen_rows & Hfit_rows); try lia.
      exists (row ++ rows). rewrite Hrows, app_assoc.
      repeat split.
      * rewrite length_app, Hlen_row, Hlen_rows, (cdiv_step (fst dimension - i)) by lia.
        rewrite Z.sub_0_r.
        replace (fst dimension - i - step_y) with (fst dimension - (i + step_y)) by lia.
        lia.
      * apply Forall_app; split; assumption.
    + exists []. rewrite app_nil_r, cdiv_nonpos by lia. repeat split. constructor.
Qed.

Lemma sweep_count fuel :
  (sweep_fuel dimension <= fuel)%nat ->
  exists tiles,
    while_i fuel bi dimension step_y step_x 0 [] = Return tiles /\
    length tiles =
      (Z.to_nat (cdiv (fst dimension) step_y) * Z.to_nat (cdiv (snd dimension) step_x))%nat /\
    Forall (fits_steps step_y step_x) tiles.
Proof.
  intros Hfuel. unfold sweep_fuel in Hfuel.
  destruct (while_i_rows_count (Z.to_nat (fst dimension)) fuel 0 [])
    as (tiles & Hrun & Hlen & Hfit); try lia.
  exists tiles. rewrite Z.sub_0_r in Hlen. repeat split; assumption.
Qed.

End SweepCount.

(** X2. When the band does not fit one tile and both truncated steps are
    positive, [_create_tiles] returns [ceil(d0 / step_y) * ceil(d1 / step_x)]
    tiles, none of them higher than [step_y] or wider than [step_x]. *)
Theorem create_tiles_count w max_size st bi q r sy sx :
  band_info (fst st) = Some bi ->
  dt_min (data_type bi) <= dt_max (data_type bi) ->
  true_div max_size
    (fst (dimensions bi) * snd (dimensions bi) * 2 * default_excess_factor) = Return q ->
  math_sqrt q = Return r ->
  (1 <? r)%float = false ->
  int (r * float_of_int (fst (dimensions bi))) = Return sy ->
  int (r * float_of_int (snd (dimensions bi))) = Return sx ->
  0 < sy -> 0 < sx ->
  forall fuel, (sweep_fuel (dimensions bi) <= fuel)%nat ->
  exists tiles,
    _create_tiles w fuel max_size st = (Return (Some tiles), st) /\
    length tiles =
      (Z.to_nat (cdiv (fst (dimensions bi)) sy) *
       Z.to_nat (cdiv (snd (dimensions bi)) sx))%nat /\
    Forall (fits_steps sy sx) tiles.
Proof.
  intros Hbi Hrange Hq Hr Hone Hsy Hsx Hsy_pos Hsx_pos fuel Hfuel.
  destruct (sweep_count bi (dimensions bi) sy sx Hsy_pos Hsx_pos fuel Hfuel)
    as (tiles & Hrun & Hlen & Hfit).
  exists tiles. repeat split; [|exact Hlen|exact Hfit].
  rewrite (create_tiles_run w fuel max_size st bi q r sy sx) by assumption.
  rewrite Hrun. reflexivity.
Qed.

(** A band of 10000 x 5000 pixels under the default budget: the steps are
    4096 and 2048, so there are 3 * 3 tiles. *)
Lemma create_tiles_count_witness :
  exists tiles,
    _create_tiles Fixtures.world (Z.to_nat 15002) default_max_size
      (Fixtures.initialized (10000, 5000)) =
      (Return (Some tiles), Fixtures.initialized (10000, 5000)) /\
    length tiles = 9%nat.
Proof.
  destruct (create_tiles_count Fixtures.world default_max_size
              (Fixtures.initialized (10000, 5000)) (Fixtures.band_of (10000, 5000))
              0x1.5798ee2308c3ap-3%float 0x1.a36e2eb1c432dp-2%float 4096 2048)
    with (fuel := Z.to_nat 15002) as (tiles & Hrun & Hlen & _);
    try (vm_compute; reflexivity);
    try (cbn [Fixtures.band_of data_type dimensions dt_min dt_max fst snd]; lia).
  exists tiles. split; [exact Hrun|]. rewrite Hlen. reflexivity.
Defined.

(** X3. A band with a dimension of zero pixels has an estimated size of 0:
    [_create_tiles] raises [ZeroDivisionError] on [max_size / size] whatever
    the budget, and so does [_download_band], before any task is submitted. *)
Theorem create_tiles_empty_band_divides_by_zero w fuel max_size st bi :
  band_info (fst st) = Some bi ->
  dt_min (data_type bi) <= dt_max (data_type bi) ->
  fst (dimensions bi) = 0 \/ snd (dimensions bi) = 0 ->
  _create_tiles w fuel max_size st = (Raise ZeroDivisionError, st) /\
  _download_band w fuel st = (Raise ZeroDivisionError, st).
Proof.
  intros Hbi Hrange Hzero.
  assert (Hrun : forall m, _create_tiles w fuel m st = (Raise ZeroDivisionError, st)).
  { intros m. unfold _create_tiles. unfold bind at 1. unfold get_state. rewrite Hbi.
    unfold bind at 1.
    rewrite (estimate_band_size_run w default_excess_factor st bi Hbi Hrange).
    unfold bind at 1. unfold lift at 1. unfold true_div.
    replace (fst (dimensions bi) * snd (dimensions bi) * 2 * default_excess_factor)
      with 0 by (destruct Hzero as [-> | ->]; lia).
    reflexivity. }
  split; [apply Hrun|].
  unfold _download_band. unfold bind at 1. unfold get_state. rewrite Hbi.
  unfold bind at 1. rewrite Hrun. reflexivity.
Qed.

Lemma create_tiles_empty_band_divides_by_zero_witness :
  _download_band Fixtures.world 10 (Fixtures.ready (0, 512)) =
  (Raise ZeroDivisionError, Fixtures.ready (0, 512)).
Proof.
  refine (proj2 (create_tiles_empty_band_divides_by_zero Fixtures.world 10 0
                   (Fixtures.ready (0, 512)) (Fixtures.scaled_band_of (0, 512))
                   eq_refl _ (or_introl eq_refl))).
  cbn. lia.
Defined.

(** X4. On a downloader whose [band_info] is [None], [_estimate_band_size]
    and [_create_tiles] each log one warning, return [None] and change no
    field, and [_download_band] raises [TypeError] at its first line, with
    nothing logged and no task submitted. *)
Theorem uninitialized_downloader_is_refused w fuel max_size excess_factor st :
  band_info (fst st) = None ->
  _estimate_band_size w excess_factor st =
    (Return None, (fst st, snd st ++ [LogWarning "GEES2Downloader not initialized"])) /\
  _create_tiles w fuel max_size st =
    (Return None, (fst st, snd st ++ [LogWarning "GEES2Downloader not initialized"])) /\
  _download_band w fuel st =
    (Raise (TypeError "'NoneType' object is not subscriptable"), st).
Proof.
  intros Hnone. repeat split.
  - unfold _estimate_band_size, bind, get_state. rewrite Hnone. reflexivity.
  - unfold _create_tiles, bind, get_state. rewrite Hnone. reflexivity.
  - unfold _download_band, bind, get_state. rewrite Hnone. reflexivity.
Qed.

Lemma uninitialized_downloader_is_refused_witness :
  _create_tiles Fixtures.world 10 default_max_size Fixtures.fresh =
  (Return None,
   (GEES2Downloader.__init__ 5, [LogWarning "GEES2Downloader not initialized"])).
Proof.
  exact (proj1 (proj2 (uninitialized_downloader_is_refused Fixtures.world 10
                         default_max_size 2 Fixtures.fresh eq_refl))).
Defined.

(** ** More on [_download_band] and [download] *)

Ltac frame_done :=
  try match goal with H : band_info _ = _ |- _ => rewrite H end;
  do 2 eexists; rewrite <- ?app_assoc;
  first [reflexivity | rewrite app_nil_r; reflexivity].

(** The state that [_download_band] leaves is the one it found, with another
    value of [tiles] perhaps, and more on the console. *)
Lemma download_band_state w fuel st :
  exists ts added,
    snd (_download_band w fuel st) =
    ({| img := img (fst st); band := band (fst st); band_info := band_info (fst st);
        array := array (fst st); tiles := ts; max_workers := max_workers (fst st) |},
     snd st ++ added).
Proof.
  unfold _download_band. unfold bind at 1. unfold get_state at 1.
  destruct (band_info (fst st)) as [bi|] eqn:Hbi.
  2:{ destruct st as [[] console]. cbn [raise fst snd img band band_info array tiles
        max_workers] in *. subst. frame_done. }
  pose proof (create_tiles_keeps_state w fuel default_max_size st bi Hbi) as Hkeep.
  unfold bind at 1.
  destruct (_create_tiles w fuel default_max_size st) as [o st1].
  cbn [snd] in Hkeep. subst st1.
  destruct o as [[tiles|]|e|].
  - unfold bind at 1. unfold set_tiles at 1. unfold modify at 1.
    unfold bind at 1. unfold emit at 1. unfold modify at 1.
    unfold bind at 1. unfold get_state at 1. cbn [fst snd].
    unfold bind at 1. unfold lift at 1.
    match goal with
    | |- context [futures.ThreadPoolExecutor ?n] =>
        destruct (futures.ThreadPoolExecutor n)
    end.
    2,3: cbn [fst snd img band band_info array max_workers]; frame_done.
    unfold bind at 1. rewrite submit_all_run. cbn [fst snd].
    unfold bind at 1. unfold lift at 1.
    match goal with |- context [wait ?ws] => destruct (wait ws) end.
    + match goal with
      | |- context [recreate ?a ?ps] => destruct (recreate a ps) as [o img_array]
      end.
      unfold bind, lift, ret.
      destruct o; cbn [fst snd img band band_info array max_workers]; frame_done.
    + cbn [fst snd img band band_info array max_workers]. frame_done.
    + cbn [fst snd img band band_info array max_workers]. frame_done.
  - unfold bind at 1. unfold set_tiles at 1. unfold modify at 1. unfold raise.
    cbn [fst snd img band band_info array max_workers]. frame_done.
  - destruct st as [[] console]. cbn [fst snd img band band_info array tiles
      max_workers] in *. subst. frame_done.
  - destruct st as [[] console]. cbn [fst snd img band band_info array tiles
      max_workers] in *. subst. frame_done.
Qed.

(** X6. Whatever happens in it, [_download_band] assigns no attribute but
    [tiles]: [img], [band], [band_info], [array] and [max_workers] are after
    the call what they were before, and what was on the console is still
    there, in front. *)
Theorem download_band_only_assigns_tiles w fuel st :
  let st' := snd (_download_band w fuel st) in
  img (fst st') = img (fst st) /\
  band (fst st') = band (fst st) /\
  band_info (fst st') = band_info (fst st) /\
  array (fst st') = array (fst st) /\
  max_workers (fst st') = max_workers (fst st) /\
  exists added, snd st' = snd st ++ added.
Proof.
  cbv zeta. destruct (download_band_state w fuel st) as (ts & added & ->).
  cbn [fst snd img band band_info array max_workers].
  repeat (split; [reflexivity|]). exists added. reflexivity.
Qed.

Lemma recreate_all_ok (fetch : Tile.t -> Future) ts : forall img_array,
  Forall (fun t => exists b, fetch t = Return b) ts ->
  fst (recreate img_array (map (fun t => (t, fetch t)) ts)) = Return tt.
Proof.
  induction ts as [|t ts IH]; intros img_array Hall; [reflexivity|].
  inversion Hall as [|? ? [b Hb] Hrest]; subst.
  cbn [map recreate]. rewrite Hb. apply IH. exact Hrest.
Qed.

Lemma recreate_shape pairs : forall img_array,
  np.shape (snd (recreate img_array pairs)) = np.shape img_array.
Proof.
  induction pairs as [|[t f] pairs IH]; intros img_array; [reflexivity|].
  cbn [recreate]. destruct f; [|reflexivity|reflexivity].
  rewrite IH. reflexivity.
Qed.

Lemma covering_ge t ts y x :
  In t ts -> covers t y x = true -> (1 <= covering ts y x)%nat.
Proof.
  induction ts as [|t' ts IH]; intros Hin Hcov; [destruct Hin|].
  cbn [covering]. destruct Hin as [->|Hin].
  - rewrite Hcov. lia.
  - specialize (IH Hin Hcov). lia.
Qed.

(** A pixel of the array that exactly one tile holds gets the value of the
    block of that tile, as an int16. *)
Lemma recreate_pixel (fetch : Tile.t -> Future) y x ts : forall img_array t b,
  Forall (fun t => exists b, fetch t = Return b) ts ->
  0 <= y < fst (np.shape img_array) -> 0 <= x < snd (np.shape img_array) ->
  covering ts y x = 1%nat ->
  In t ts -> fetch t = Return b -> covers t y x = true ->
  np.item (snd (recreate img_array (map (fun t => (t, fetch t)) ts))) y x =
  np.int16 (b (y - start (Tile.slice_y t)) (x - start (Tile.slice_x t))).
Proof.
  induction ts as [|t0 ts IH]; intros img_array t b Hall Hy Hx Hone Hin Hfetch Hcov;
    [destruct Hin|].
  inversion Hall as [|? ? [b0 Hb0] Hrest]; subst.
  cbn [map recreate]. rewrite Hb0. cbn [covering] in Hone.
  destruct (covers t0 y x) eqn:Hcov0.
  - assert (Hzero : covering ts y x = 0%nat) by lia.
    assert (t = t0) as ->.
    { destruct Hin as [<-|Hin]; [reflexivity|].
      pose proof (covering_ge t ts y x Hin Hcov). lia. }
    rewrite Hfetch in Hb0. injection Hb0 as <-.
    rewrite recreate_untouched
      by (rewrite map_map; cbn [fst]; rewrite map_id; exact Hzero).
    unfold np.setitem, np.in_slice, Tile.slices. cbn [np.item np.shape fst snd].
    unfold covers in Hcov0. revert Hcov0. zbool; discriminate.
  - destruct Hin as [<-|Hin]; [congruence|].
    apply IH; try assumption; try lia.
Qed.

Lemma int16_in_range v : -32768 <= v < 32768 -> np.int16 v = v.
Proof.
  intros Hv. unfold np.int16. rewrite Z.mod_small by lia. lia.
Qed.

(** X5. With a pool of at least one worker, when the tiles that
    [_create_tiles] returns are a partition of the grid and every fetch
    comes back with a block, [_download_band] returns an
    array of the dimensions of the band in which every pixel holds the sample
    of the block of its tile, taken at the offset of the pixel in the tile
    and cast to int16 (so kept as it is when it lies in the int16 range); the
    tile list is stored in [tiles]. *)
Theorem download_band_assembles_every_block w fuel st bi ts :
  band_info (fst st) = Some bi ->
  0 < max_workers (fst st) ->
  fst (_create_tiles w fuel default_max_size st) = Return (Some ts) ->
  partition (dimensions bi) ts ->
  let fetch := fun t =>
    Tile.download w t (img (fst st)) (band (fst st))
      (Some (common.requests_retry_session w 5 0x1.3333333333333p-2%float
               [500; 502; 503; 504])) in
  Forall (fun t => exists b, fetch t = Return b) ts ->
  exists a,
    fst (_download_band w fuel st) = Return a /\
    tiles (fst (snd (_download_band w fuel st))) = Some ts /\
    np.shape a = dimensions bi /\
    forall t b y x,
      In t ts -> fetch t = Return b -> covers t y x = true ->
      np.item a y x =
        np.int16 (b (y - start (Tile.slice_y t)) (x - start (Tile.slice_x t))) /\
      (-32768 <= b (y - start (Tile.slice_y t)) (x - start (Tile.slice_x t)) < 32768 ->
       np.item a y x = b (y - start (Tile.slice_y t)) (x - start (Tile.slice_x t))).
Proof.
  intros Hbi Hpool Htiles [Hwithin Hone] fetch Hall.
  set (a := snd (recreate (np.zeros (dimensions bi)) (map (fun t => (t, fetch t)) ts))).
  assert (Hdone : Forall (fun f => done f = true) (map fetch ts)).
  { apply List.Forall_map. eapply List.Forall_impl; [|exact Hall].
    intros t [b Hb]. change (done (fetch t) = true). rewrite Hb. reflexivity. }
  assert (Hloop : recreate (np.zeros (dimensions bi)) (combine ts (map fetch ts)) =
                  (Return tt, a)).
  { rewrite combine_map_self. subst a.
    rewrite (surjective_pairing (recreate _ _)) at 1.
    rewrite recreate_all_ok by exact Hall. reflexivity. }
  assert (Hrun : _download_band w fuel st =
                 (Return a,
                  (let self := fst st in
                   {| img := img self; band := band self; band_info := band_info self;
                      array := array self; tiles := Some ts;
                      max_workers := max_workers self |},
                   (snd st ++
                    [Print ("Dividing band in " ++ str (Z.of_nat (length ts)) ++ " tiles")])
                    ++ map (fun t => Submit (Tile.slices t)) ts))).
  { unfold _download_band.
    unfold bind at 1. unfold get_state at 1. rewrite Hbi.
    pose proof (create_tiles_keeps_state w fuel default_max_size st bi Hbi) as Hkeep.
    unfold bind at 1.
    destruct (_create_tiles w fuel default_max_size st) as [o st1].
    cbn [fst snd] in Htiles, Hkeep. subst o st1.
    unfold bind at 1. unfold set_tiles at 1. unfold modify at 1.
    unfold bind at 1. unfold emit at 1. unfold modify at 1.
    unfold bind at 1. unfold get_state at 1. cbn [fst snd].
    unfold bind at 1. unfold lift at 1. cbn [max_workers].
    rewrite executor_run by exact Hpool.
    unfold bind at 1. rewrite submit_all_run. cbn [fst snd].
    unfold bind at 1. unfold lift at 1.
    rewrite wait_done by exact Hdone.
    match goal with
    | |- context [recreate ?a0 ?pairs] =>
        change (recreate a0 pairs)
          with (recreate (np.zeros (dimensions bi)) (combine ts (map fetch ts)))
    end.
    rewrite Hloop, ?Hbi. reflexivity. }
  exists a. rewrite Hrun. cbn [fst snd tiles].
  split; [reflexivity|]. split; [reflexivity|].
  split; [subst a; apply recreate_shape|].
  intros t b y x Hin Hfetch Hcov.
  assert (Hgrid : 0 <= y < fst (dimensions bi) /\ 0 <= x < snd (dimensions bi)).
  { rewrite List.Forall_forall in Hwithin. specialize (Hwithin t Hin).
    unfold within in Hwithin. unfold covers in Hcov. revert Hcov. zbool; discriminate. }
  assert (Hpix : np.item a y x =
                 np.int16 (b (y - start (Tile.slice_y t)) (x - start (Tile.slice_x t)))).
  { subst a. apply recreate_pixel; try assumption; try apply Hgrid.
    apply Hone; apply Hgrid. }
  split; [exact Hpix|].
  intros Hrange. rewrite Hpix. apply int16_in_range. exact Hrange.
Qed.

(** The four tiles of a band of 4096 x 4096 pixels are a partition. *)
Lemma four_tiles_partition :
  partition (4096, 4096)
    [Fixtures.tile_of (4096, 4096) 0 2896 0 2896;
     Fixtures.tile_of (4096, 4096) 0 2896 2896 4096;
     Fixtures.tile_of (4096, 4096) 2896 4096 0 2896;
     Fixtures.tile_of (4096, 4096) 2896 4096 2896 4096].
Proof.
  split.
  - repeat constructor; cbn; lia.
  - intros y x Hy Hx. cbn [fst snd] in Hy, Hx.
    unfold covering, covers, Fixtures.tile_of.
    cbn [Tile.slice_y Tile.slice_x start stop]. zbool.
Defined.

(** Four tiles, all fetched as blocks of sevens: the pixel (0, 3000) of the
    array returned is 7. *)
Lemma download_band_assembles_every_block_witness :
  exists a,
    fst (_download_band Fixtures.world 10 (Fixtures.ready (4096, 4096))) = Return a /\
    np.item a 0 3000 = 7.
Proof.
  destruct (download_band_assembles_every_block Fixtures.world 10
              (Fixtures.ready (4096, 4096)) (Fixtures.scaled_band_of (4096, 4096))
              [Fixtures.tile_of (4096, 4096) 0 2896 0 2896;
               Fixtures.tile_of (4096, 4096) 0 2896 2896 4096;
               Fixtures.tile_of (4096, 4096) 2896 4096 0 2896;
               Fixtures.tile_of (4096, 4096) 2896 4096 2896 4096]
              eq_refl)
    as (a & Hrun & _ & _ & Hpixel).
  - cbn. lia.
  - vm_compute. reflexivity.
  - exact four_tiles_partition.
  - repeat constructor; eexists; vm_compute; reflexivity.
  - exists a. split; [exact Hrun|].
    destruct (Hpixel (Fixtures.tile_of (4096, 4096) 0 2896 2896 4096) (fun _ _ => 7) 0 3000)
      as [_ Hexact].
    + right. left. reflexivity.
    + vm_compute. reflexivity.
    + reflexivity.
    + apply Hexact. lia.
Defined.

Lemma select_singleton img band b :
  ee.select img band = [b] ->
  ee.bandNames_contains img band = true /\ ee.name b = band.
Proof.
  intros Hsel.
  assert (Hin : In b (ee.select img band)) by (rewrite Hsel; left; reflexivity).
  unfold ee.select in Hin. apply filter_In in Hin as [Hin Heq].
  apply String.eqb_eq in Heq. split; [|congruence].
  unfold ee.bandNames_contains. apply existsb_exists.
  exists (ee.name b). split; [apply in_map; exact Hin|].
  apply String.eqb_eq. exact Heq.
Qed.

(** [download] on a band that the image has once: the metadata are stored,
    then [_download_band] runs, and only when it returns is [array]
    assigned. *)
Lemma download_present_band_run w fuel img band st b :
  ee.select img band = [b] ->
  download w fuel img band st =
  match _download_band w fuel (after_metadata st b) with
  | (Return a, st2) =>
      (Return tt,
       ({| GEES2Downloader.img := GEES2Downloader.img (fst st2);
           GEES2Downloader.band := GEES2Downloader.band (fst st2);
           band_info := band_info (fst st2);
           array := Some a;
           tiles := tiles (fst st2);
           max_workers := max_workers (fst st2) |},
        snd st2 ++ [Print "Finished. The result can be accessed at obj.array"]))
  | (Raise e, st2) => (Raise e, st2)
  | (OutOfFuel, st2) => (OutOfFuel, st2)
  end.
Proof.
  intros Hsel. destruct (select_singleton img band b Hsel) as [Hcontains Hname].
  unfold download. rewrite Hcontains, Hsel.
  unfold ee.system_bands, ee.projection_nominalScale. cbn [find].
  rewrite Hname, String.eqb_refl.
  unfold bind at 1. unfold emit at 1. unfold modify at 1.
  unfold bind at 1. unfold emit at 1. unfold modify at 1.
  unfold bind at 1. unfold set_img at 1. unfold modify at 1.
  unfold bind at 1. unfold set_band at 1. unfold modify at 1.
  unfold bind at 1. unfold emit at 1. unfold modify at 1.
  unfold bind at 1. unfold lift at 1.
  unfold bind at 1. unfold set_band_info at 1. unfold modify at 1.
  unfold bind at 1. unfold emit at 1. unfold modify at 1.
  unfold bind at 1. unfold lift at 1.
  unfold bind at 1. unfold set_band_info at 1. unfold modify at 1.
  unfold bind at 1. cbn [fst snd GEES2Downloader.img GEES2Downloader.band band_info
                          array tiles max_workers].
  unfold after_metadata. rewrite Hname, <- !app_assoc. cbn [app].
  match goal with
  | |- (let (_, _) := ?run in _) = (let (_, _) := ?run' in _) =>
      change run' with run; destruct run as [o st2]
  end.
  destruct o; reflexivity.
Qed.

(** X7. When the image has the band (once), [download] stores the selected
    image, the band name and the band's metadata with its nominal scale
    before any tile is fetched, and they stay stored whatever happens next;
    [array] is assigned the assembled array only if [_download_band] returns.
    If it raises or never ends, [array] still holds what it held before the
    call, that is the array of the band downloaded earlier, if any. *)
Theorem download_switches_band_before_fetching w fuel img band st b :
  ee.select img band = [b] ->
  let r := download w fuel img band st in
  let self' := fst (snd r) in
  GEES2Downloader.img self' = Some [b] /\
  GEES2Downloader.band self' = Some band /\
  band_info self' =
    Some {| dimensions := dimensions (ee.info b); data_type := data_type (ee.info b);
            crs := crs (ee.info b); crs_transform := crs_transform (ee.info b);
            nominal_scale := Some (ee.scale b) |} /\
  match fst r with
  | Return _ =>
      exists a, fst (_download_band w fuel (after_metadata st b)) = Return a /\
                array self' = Some a
  | _ => array self' = array (fst st)
  end.
Proof.
  intros Hsel. cbv zeta.
  rewrite (download_present_band_run w fuel img band st b Hsel).
  destruct (select_singleton img band b Hsel) as [_ Hname].
  destruct (download_band_state w fuel (after_metadata st b)) as (ts & added & Hstate).
  destruct (_download_band w fuel (after_metadata st b)) as [o st2].
  cbn [snd] in Hstate. subst st2.
  destruct o as [a|e|];
    cbn [fst snd after_metadata GEES2Downloader.img GEES2Downloader.band band_info array];
    rewrite Hname; repeat split.
  exists a. split; reflexivity.
Qed.

(** A downloader that holds an array of 2 x 2 pixels asks for a band of
    4096 x 4096 pixels and the first fetch fails: the call raises, the
    metadata are those of the new band, the array is the old one. *)
Lemma download_switches_band_before_fetching_witness :
  let r := download (Fixtures.world_failing "https://ee/0,0") 10
             (Fixtures.image_of (4096, 4096)) "B4" Fixtures.loaded in
  fst r = Raise (External "ConnectionError") /\
  option_map dimensions (band_info (fst (snd r))) = Some (4096, 4096) /\
  option_map np.shape (array (fst (snd r))) = Some (2, 2).
Proof.
  intros r.
  pose proof (download_switches_band_before_fetching
                (Fixtures.world_failing "https://ee/0,0") 10
                (Fixtures.image_of (4096, 4096)) "B4" Fixtures.loaded
                {| ee.name := "B4"; ee.info := Fixtures.band_of (4096, 4096);
                   ee.scale := 10%float |} eq_refl) as H.
  cbv zeta in H. fold r in H. destruct H as (_ & _ & Hbi & Harray).
  assert (Hout : fst r = Raise (External "ConnectionError")) by (vm_compute; reflexivity).
  rewrite Hout in Harray. rewrite Hbi, Harray. repeat split; try exact Hout.
Defined.

(** ** [_workers_done] *)

Lemma workers_done_fold workers : forall running,
  fold_left (fun running w => running + (if done w then 1 else 0)) workers running =
  running + Z.of_nat (length (List.filter done workers)).
Proof.
  induction workers as [|f workers IH]; intros running; cbn [fold_left List.filter length].
  - lia.
  - rewrite IH. destruct (done f); cbn [length]; lia.
Qed.

Lemma filter_done_length workers :
  (length (List.filter done workers) <= length workers)%nat /\
  (length (List.filter done workers) = length workers <->
   Forall (fun f => done f = true) workers).
Proof.
  induction workers as [|f workers [IHle IHiff]]; cbn [List.filter length].
  - split; [lia|]. split; [constructor | reflexivity].
  - destruct (done f) eqn:Hf; cbn [length].
    + split; [lia|]. split.
      * intros Hlen. constructor; [exact Hf|]. apply IHiff. lia.
      * intros Hall. inversion Hall; subst. f_equal. apply IHiff. assumption.
    + split; [lia|]. split; [lia|].
      intros Hall. inversion Hall; subst. congruence.
Qed.

(** X8. [_workers_done] is the number of workers that are done (whether they
    returned or raised): it lies between 0 and the number of workers, and it
    equals that number exactly when every worker is done. *)
Theorem workers_done_counts_finished workers :
  _workers_done workers = Z.of_nat (length (List.filter done workers)) /\
  0 <= _workers_done workers <= Z.of_nat (length workers) /\
  (_workers_done workers = Z.of_nat (length workers) <->
   Forall (fun f => done f = true) workers).
Proof.
  assert (Hcount : _workers_done workers = Z.of_nat (length (List.filter done workers))).
  { unfold _workers_done. rewrite workers_done_fold. lia. }
  destruct (filter_done_length workers) as [Hle Hiff].
  rewrite Hcount. repeat split; try lia.
  - intros Hlen. apply Hiff. lia.
  - intros Hall. f_equal. apply Hiff. exact Hall.
Qed.

(** ** More on the readers of common.py *)

(** X9. Called without a progress bar, as the defaults of [open_zip_url]
    allow, neither [open_url] nor [open_zip_url] nor [open_url_dataset] ever
    returns: either the request fails, or the body is read to the end and the
    test on [pbar.n] raises [AttributeError]. *)
Theorem readers_never_return_without_bar w url session :
  (forall r, common.open_url w url session None <> Return r) /\
  (forall r, common.open_zip_url w url session None <> Return r) /\
  (forall r, common.open_url_dataset w url session None <> Return r).
Proof.
  assert (Hopen : forall r, common.open_url w url session None <> Return r).
  { intros r.
    destruct (requests.get (match session with Some s => s | None => requests_module w end)
                url 1024) as [chunks|e|] eqn:Hget.
    - rewrite (open_url_without_bar_raises w url session chunks Hget). discriminate.
    - unfold common.open_url. rewrite Hget. discriminate.
    - unfold common.open_url. rewrite Hget. discriminate. }
  assert (Hzip : forall r, common.open_zip_url w url session None <> Return r).
  { intros r. unfold common.open_zip_url.
    destruct (common.open_url w url session None) as [r0|e|] eqn:Hrun;
      [exfalso; exact (Hopen r0 eq_refl) | discriminate | discriminate]. }
  repeat split; [exact Hopen | exact Hzip |].
  intros r. unfold common.open_url_dataset.
  destruct (common.open_zip_url w url session None) as [r0|e|] eqn:Hrun;
    [exfalso; exact (Hzip r0 eq_refl) | discriminate | discriminate].
Qed.

(** X10. When the body parses as an archive that has no entry,
    [open_zip_url] raises [IndexError] on [z.filelist[0]], and with it
    [open_url_dataset]. *)
Theorem open_zip_url_empty_archive w url session p chunks z :
  requests.get (match session with Some s => s | None => requests_module w end) url 1024
    = Return chunks ->
  ZipFile w (concat chunks) = Return z ->
  zipfile.filelist z = [] ->
  common.open_zip_url w url session (Some p) = Raise IndexError /\
  common.open_url_dataset w url session (Some p) = Raise IndexError.
Proof.
  intros Hget Hzip Hlist.
  assert (Hrun : common.open_zip_url w url session (Some p) = Raise IndexError).
  { unfold common.open_zip_url.
    rewrite (open_url_run w url session p chunks Hget). cbn [obind].
    rewrite Hzip. cbn [obind]. rewrite Hlist. reflexivity. }
  split; [exact Hrun|].
  unfold common.open_url_dataset. rewrite Hrun. reflexivity.
Qed.

Lemma open_zip_url_empty_archive_witness :
  common.open_url_dataset Fixtures.world_empty_archive "https://ee/0,0" None
    (Some {| tqdm.n := 0; tqdm.total := 5000 |}) = Raise IndexError.
Proof.
  exact (proj2 (open_zip_url_empty_archive Fixtures.world_empty_archive "https://ee/0,0"
                  None {| tqdm.n := 0; tqdm.total := 5000 |} [Fixtures.payload]
                  {| zipfile.filelist := []; zipfile.read := fun _ => Raise IndexError |}
                  eq_refl eq_refl eq_refl)).
Defined.

(** X21. With a progress bar, whenever the body parses as an archive whose
    file list starts with an entry that reads as [data], [open_zip_url]
    returns [data]: the number of entries is not checked, and the entries
    after the first are not read. *)
Theorem open_zip_url_returns_first_entry w url session p chunks z first others data :
  requests.get (match session with Some s => s | None => requests_module w end) url 1024
    = Return chunks ->
  ZipFile w (concat chunks) = Return z ->
  zipfile.filelist z = first :: others ->
  zipfile.read z first = Return data ->
  common.open_zip_url w url session (Some p) =
  Return (data,
          {| tqdm.n := Z.max (tqdm.n p + 1024 * nonempty_chunks chunks) (tqdm.total p);
             tqdm.total := tqdm.total p |}).
Proof.
  intros Hget Hzip Hlist Hread.
  unfold common.open_zip_url.
  rewrite (open_url_run w url session p chunks Hget). cbn [obind].
  rewrite Hzip. cbn [obind]. rewrite Hlist, Hread. reflexivity.
Qed.

(** An archive of two entries: the bytes of the first come back, and the
    second, which cannot even be read, is never looked at. *)
Lemma open_zip_url_returns_first_entry_witness :
  common.open_zip_url Fixtures.world_two_entries "https://ee/0,0" None
    (Some {| tqdm.n := 0; tqdm.total := 5000 |}) =
  Return ([Byte.x01], {| tqdm.n := 5000; tqdm.total := 5000 |}).
Proof.
  exact (open_zip_url_returns_first_entry Fixtures.world_two_entries "https://ee/0,0" None
           {| tqdm.n := 0; tqdm.total := 5000 |} [Fixtures.payload]
           Fixtures.archive_two
           {| zipfile.filename := "a.tif"; zipfile.header_offset := 0 |}
           [ {| zipfile.filename := "b.tif"; zipfile.header_offset := 64 |} ]
           [Byte.x01] eq_refl eq_refl eq_refl eq_refl).
Defined.

(** ** [Tile.download] *)

(** X11. [Tile.download] chains the readers: with the nominal scale in the
    band's metadata, a URL from Earth Engine, a size for the progress bar
    (the binary64 product gives one unless the pixel count is beyond the
    range of binary64), a body that parses as an archive and a first entry
    that opens as a raster, it returns the block that the dataset reads at
    the shape of the tile. *)
Theorem tile_download_reads_block_of_tile_shape
  w t img band session s url total chunks z first others data ds whole b :
  nominal_scale (Tile.band_info t) = Some s ->
  getDownloadUrl w img band s (Tile.band_info t) (Tile.slice_y t) (Tile.slice_x t)
    = Return url ->
  Tile.size t = Return total ->
  requests.get (match session with Some s => s | None => requests_module w end) url 1024
    = Return chunks ->
  ZipFile w (concat chunks) = Return z ->
  zipfile.filelist z = first :: others ->
  zipfile.read z first = Return data ->
  MemoryFile_open w data = Return ds ->
  rasterio.read ds None = Return whole ->
  rasterio.read ds (Some (Tile.shape t)) = Return b ->
  Tile.download w t (Some img) band session = Return b.
Proof.
  intros Hscale Hurl Hsize Hget Hzip Hlist Hread Hopen Hwhole Hblock.
  unfold Tile.download, Tile.nominal_scale. rewrite Hscale. cbn [obind].
  rewrite Hurl. cbn [obind]. rewrite Hsize. cbn [obind].
  unfold common.open_url_dataset.
  rewrite (open_zip_url_returns_first_entry_run w url session _ chunks z first others data
             Hget Hzip Hlist Hread).
  cbn [obind]. rewrite Hopen. cbn [obind]. rewrite Hwhole. cbn [obind fst].
  exact Hblock.
Qed.

(** X12. A request that fails makes the task fail with the same exception:
    once the URL is issued and the progress bar made with the size of the
    tile, what [session.get] raises comes out of [Tile.download] unchanged. *)
Theorem tile_download_surfaces_request_failure w t img band session s url total e :
  nominal_scale (Tile.band_info t) = Some s ->
  getDownloadUrl w img band s (Tile.band_info t) (Tile.slice_y t) (Tile.slice_x t)
    = Return url ->
  Tile.size t = Return total ->
  requests.get (match session with Some s => s | None => requests_module w end) url 1024
    = Raise e ->
  Tile.download w t (Some img) band session = Raise e.
Proof.
  intros Hscale Hurl Hsize Hget.
  unfold Tile.download, Tile.nominal_scale. rewrite Hscale. cbn [obind].
  rewrite Hurl. cbn [obind]. rewrite Hsize. cbn [obind].
  unfold common.open_url_dataset, common.open_zip_url, common.open_url.
  rewrite Hget. reflexivity.
Qed.

Lemma tile_download_reads_block_of_tile_shape_witness :
  exists b,
    Tile.download Fixtures.world (Fixtures.tile_of (4096, 4096) 0 2896 0 2896)
      (Some (Fixtures.image_of (4096, 4096))) (Some "B4"%string) None = Return b /\
    b 5 5 = 7.
Proof.
  exists (fun _ _ => 7). split; [|reflexivity].
  apply (tile_download_reads_block_of_tile_shape Fixtures.world
           (Fixtures.tile_of (4096, 4096) 0 2896 0 2896)
           (Fixtures.image_of (4096, 4096)) (Some "B4"%string) None
           10%float "https://ee/0,0" 10902860 [Fixtures.payload]
           {| zipfile.filelist :=
                [ {| zipfile.filename := "tile.tif"; zipfile.header_offset := 0 |} ];
              zipfile.read := fun _ => Return Fixtures.payload |}
           {| zipfile.filename := "tile.tif"; zipfile.header_offset := 0 |} []
           Fixtures.payload
           {| rasterio.read := fun _ => Return (fun _ _ => 7) |}
           (fun _ _ => 7) (fun _ _ => 7));
    vm_compute; reflexivity.
Defined.

Lemma tile_download_surfaces_request_failure_witness :
  Tile.download (Fixtures.world_failing "https://ee/0,0")
    (Fixtures.tile_of (4096, 4096) 0 2896 0 2896)
    (Some (Fixtures.image_of (4096, 4096))) (Some "B4"%string) None =
  Raise (External "ConnectionError").
Proof.
  apply (tile_download_surfaces_request_failure (Fixtures.world_failing "https://ee/0,0")
           (Fixtures.tile_of (4096, 4096) 0 2896 0 2896)
           (Fixtures.image_of (4096, 4096)) (Some "B4"%string) None
           10%float "https://ee/0,0" 10902860);
    vm_compute; reflexivity.
Defined.

(** ** More on [Tile.size] *)

(** X13. For a tile of fewer than 2^48 pixels (and not inside out), the
    size computed in binary64 is at least the number of pixels and at most
    1.3 times that number; it is 0 only for a tile without pixels. *)
Theorem tile_size_bounds (t : Tile.t) :
  0 <= fst (Tile.shape t) * snd (Tile.shape t) < 2 ^ 48 ->
  exists z : Z,
    Tile.size t = Return z /\
    fst (Tile.shape t) * snd (Tile.shape t) <= z /\
    10 * z <= 13 * (fst (Tile.shape t) * snd (Tile.shape t)) /\
    (z = 0 <-> fst (Tile.shape t) * snd (Tile.shape t) = 0).
Proof.
  intros Harea. set (a := fst (Tile.shape t) * snd (Tile.shape t)) in *.
  exists (13 * a / 10). split.
  - unfold Tile.size. fold a. apply size_small. exact Harea.
  - pose proof (Z.div_mod (13 * a) 10 ltac:(lia)) as Hdiv.
    pose proof (Z.mod_pos_bound (13 * a) 10 ltac:(lia)) as Hmod.
    repeat split; lia.
Qed.

Lemma tile_size_bounds_witness :
  exists z : Z,
    Tile.size (Fixtures.tile_of (4096, 4096) 0 2896 2896 4096) = Return z /\
    2896 * 1200 <= z.
Proof.
  destruct (tile_size_bounds (Fixtures.tile_of (4096, 4096) 0 2896 2896 4096))
    as (z & Hsize & Hlow & _).
  - vm_compute. split; [discriminate|reflexivity].
  - exists z. split; [exact Hsize|exact Hlow].
Defined.

(** ** More on [create_geometry] *)

Section GeometryMore.

Context {point : Type} (point_ne : point -> point -> bool).
Context (is_valid : @common.geometry point -> bool).

Lemma create_geometry_list_run l first rest logger
  (heap : gmap nat (list point)) (console : list event) :
  heap !! l = Some (first :: rest) ->
  let ring := closed_ring point_ne first rest in
  let valid := is_valid (common.Polygon [ring]) in
  common.create_geometry point_ne is_valid (common.ListRef l) logger (heap, console) =
  (Return (if valid then Some (common.Polygon [ring]) else None),
   (if point_ne first (List.last rest first) then <[l := ring]> heap else heap,
    console ++
    (if valid then []
     else [match logger with
           | Some _ => LogError "Informed points do not correspond to a valid polygon."
           | None => Print "Informed points do not correspond to a valid polygon."
           end]))).
Proof.
  intros Hheap. cbv zeta. unfold closed_ring, common.create_geometry.
  unfold bind at 1. unfold bind at 1. unfold get_state at 1.
  cbn [fst snd]. rewrite Hheap.
  destruct (point_ne first (List.last rest first)).
  - unfold bind at 1. unfold modify at 1. unfold bind at 1. unfold get_state at 1.
    cbn [fst snd]. rewrite lookup_insert_eq. unfold ret at 1.
    destruct (is_valid (common.Polygon [(first :: rest) ++ [first]])).
    + unfold ret. rewrite app_nil_r. reflexivity.
    + destruct logger; reflexivity.
  - unfold bind at 1. unfold ret at 1. unfold bind at 1. unfold get_state at 1.
    cbn [fst snd]. rewrite Hheap. unfold ret at 1.
    destruct (is_valid (common.Polygon [first :: rest])).
    + unfold ret. rewrite app_nil_r. reflexivity.
    + destruct logger; reflexivity.
Qed.

(** X14. For a list that is not empty and whose first point does not differ
    from itself, [create_geometry] leaves in the caller's list the ring made
    of it: the points of the list, followed by the first point when the last
    one differs from it. That ring starts with the first point and ends with
    a point that does not differ from it; when geojson finds the polygon of
    that ring valid it is returned, otherwise [None] is returned and the
    message goes once to the logger if there is one, to the console if
    not. *)
Theorem create_geometry_returns_closed_ring l first rest logger
  (heap : gmap nat (list point)) (console : list event) :
  heap !! l = Some (first :: rest) ->
  point_ne first first = false ->
  let r := common.create_geometry point_ne is_valid (common.ListRef l) logger
             (heap, console) in
  let ring := closed_ring point_ne first rest in
  fst (snd r) !! l = Some ring /\
  (ring = first :: rest \/ ring = first :: rest ++ [first]) /\
  (exists tail, ring = first :: tail /\ point_ne first (List.last tail first) = false) /\
  fst r = Return (if is_valid (common.Polygon [ring])
                  then Some (common.Polygon [ring]) else None) /\
  snd (snd r) =
    console ++
    (if is_valid (common.Polygon [ring]) then []
     else [match logger with
           | Some _ => LogError "Informed points do not correspond to a valid polygon."
           | None => Print "Informed points do not correspond to a valid polygon."
           end]).
Proof.
  intros Hheap Hrefl r ring. subst r ring.
  rewrite (create_geometry_list_run l first rest logger heap console Hheap).
  cbv zeta. cbn [fst snd].
  split; [|split; [|split; [|split; reflexivity]]].
  - unfold closed_ring. destruct (point_ne first (List.last rest first)).
    + apply lookup_insert_eq.
    + exact Hheap.
  - unfold closed_ring. destruct (point_ne first (List.last rest first));
      [right | left]; reflexivity.
  - unfold closed_ring. destruct (point_ne first (List.last rest first)) eqn:Hne.
    + exists (rest ++ [first]). split; [reflexivity|]. rewrite last_last. exact Hrefl.
    + exists rest. split; [reflexivity | exact Hne].
Qed.

(** X15. A second call on the same list appends nothing: once closed, the
    caller's list stays as it is. *)
Theorem create_geometry_closes_only_once l first rest logger logger'
  (heap : gmap nat (list point)) (console : list event) :
  heap !! l = Some (first :: rest) ->
  point_ne first first = false ->
  let r1 := common.create_geometry point_ne is_valid (common.ListRef l) logger
              (heap, console) in
  let r2 := common.create_geometry point_ne is_valid (common.ListRef l) logger'
              (snd r1) in
  fst (snd r2) = fst (snd r1).
Proof.
  intros Hheap Hrefl r1 r2. subst r2 r1.
  rewrite (create_geometry_list_run l first rest logger heap console Hheap).
  cbv zeta. cbn [snd].
  destruct (point_ne first (List.last rest first)) eqn:Hne.
  - unfold closed_ring. rewrite Hne.
    change ((first :: rest) ++ [first]) with (first :: (rest ++ [first])).
    rewrite (create_geometry_list_run l first (rest ++ [first]) logger' _ _
               (lookup_insert_eq _ _ _)).
    cbv zeta. cbn [fst snd]. rewrite last_last, Hrefl. reflexivity.
  - rewrite (create_geometry_list_run l first rest logger' heap _ Hheap).
    cbv zeta. cbn [fst snd]. rewrite Hne. reflexivity.
Qed.

(** X16. An empty list makes [create_geometry] raise [IndexError] on
    [pts[0]]: nothing is appended, logged or printed. *)
Theorem create_geometry_empty_list l logger
  (heap : gmap nat (list point)) (console : list event) :
  heap !! l = Some [] ->
  common.create_geometry point_ne is_valid (common.ListRef l) logger (heap, console) =
  (Raise IndexError, (heap, console)).
Proof.
  intros Hheap. unfold common.create_geometry.
  unfold bind at 1. unfold bind at 1. unfold get_state at 1.
  cbn [fst snd]. rewrite Hheap. reflexivity.
Qed.

End GeometryMore.

(** An open triangle: the ring returned has four points and ends at (0, 0). *)
Lemma create_geometry_returns_closed_ring_witness :
  fst (common.create_geometry Fixtures.pt_ne Fixtures.ring_valid (common.ListRef 0) None
         (Fixtures.triangle_heap, [])) =
  Return (Some (common.Polygon [[(0, 0); (4, 0); (4, 3); (0, 0)]])).
Proof.
  destruct (create_geometry_returns_closed_ring Fixtures.pt_ne Fixtures.ring_valid
              0%nat (0, 0) [(4, 0); (4, 3)] None Fixtures.triangle_heap []
              ltac:(vm_compute; reflexivity) eq_refl)
    as (_ & _ & _ & Hout & _).
  exact Hout.
Defined.

(** Two calls on an open triangle: the list has four points after the first
    and still four after the second. *)
Lemma create_geometry_closes_only_once_witness :
  let r1 := common.create_geometry Fixtures.pt_ne Fixtures.ring_valid (common.ListRef 0)
              None (Fixtures.triangle_heap, []) in
  let r2 := common.create_geometry Fixtures.pt_ne Fixtures.ring_valid (common.ListRef 0)
              None (snd r1) in
  fst (snd r2) !! 0%nat = Some [(0, 0); (4, 0); (4, 3); (0, 0)].
Proof.
  intros r1 r2. subst r2 r1.
  rewrite (create_geometry_closes_only_once Fixtures.pt_ne Fixtures.ring_valid
             0%nat (0, 0) [(4, 0); (4, 3)] None None Fixtures.triangle_heap []
             ltac:(vm_compute; reflexivity) eq_refl).
  vm_compute. reflexivity.
Defined.

Lemma create_geometry_empty_list_witness :
  fst (common.create_geometry Fixtures.pt_ne Fixtures.ring_valid (common.ListRef 1) None
         (Fixtures.triangle_heap, [])) = Raise IndexError.
Proof.
  rewrite (create_geometry_empty_list Fixtures.pt_ne Fixtures.ring_valid 1%nat None
             Fixtures.triangle_heap [] ltac:(vm_compute; reflexivity)).
  reflexivity.
Defined.

(** ** Every tile is submitted *)

(** X17. With a pool of at least one worker, once [_create_tiles] has
    returned a tile list, [_download_band] prints their number and submits
    one task for every tile, in the order of the list, before it reads any
    result: the console shows exactly that, whether the fetches succeed,
    fail or never end. *)
Theorem download_band_submits_every_tile w fuel st bi ts :
  band_info (fst st) = Some bi ->
  0 < max_workers (fst st) ->
  fst (_create_tiles w fuel default_max_size st) = Return (Some ts) ->
  snd (snd (_download_band w fuel st)) =
    snd st ++
    Print ("Dividing band in " ++ str (Z.of_nat (length ts)) ++ " tiles")
    :: map (fun t => Submit (Tile.slices t)) ts /\
  tiles (fst (snd (_download_band w fuel st))) = Some ts.
Proof.
  intros Hbi Hpool Htiles.
  assert (Hrun : snd (_download_band w fuel st) =
                 ({| img := img (fst st); band := band (fst st);
                     band_info := band_info (fst st); array := array (fst st);
                     tiles := Some ts; max_workers := max_workers (fst st) |},
                  (snd st ++
                   [Print ("Dividing band in " ++ str (Z.of_nat (length ts)) ++ " tiles")])
                  ++ map (fun t => Submit (Tile.slices t)) ts)).
  { unfold _download_band.
    unfold bind at 1. unfold get_state at 1. rewrite Hbi.
    pose proof (create_tiles_keeps_state w fuel default_max_size st bi Hbi) as Hkeep.
    unfold bind at 1.
    destruct (_create_tiles w fuel default_max_size st) as [o st1].
    cbn [fst snd] in Htiles, Hkeep. subst o st1.
    unfold bind at 1. unfold set_tiles at 1. unfold modify at 1.
    unfold bind at 1. unfold emit at 1. unfold modify at 1.
    unfold bind at 1. unfold get_state at 1. cbn [fst snd].
    unfold bind at 1. unfold lift at 1. cbn [max_workers].
    rewrite executor_run by exact Hpool.
    unfold bind at 1. rewrite submit_all_run. cbn [fst snd].
    unfold bind at 1. unfold lift at 1.
    match goal with |- context [wait ?ws] => destruct (wait ws) end;
      [|cbn [snd]; rewrite ?Hbi; reflexivity ..].
    match goal with
    | |- context [recreate ?a ?ps] => destruct (recreate a ps) as [o img_array]
    end.
    unfold bind, lift, ret. destruct o; cbn [snd]; rewrite ?Hbi; reflexivity. }
  rewrite Hrun. cbn [fst snd tiles]. rewrite <- app_assoc. split; reflexivity.
Qed.

(** Four tiles, the first fetch fails: four tasks were submitted all the
    same. *)
Lemma download_band_submits_every_tile_witness :
  snd (snd (_download_band (Fixtures.world_failing "https://ee/0,0") 10
              (Fixtures.ready (4096, 4096)))) =
  [Print "Dividing band in 4 tiles";
   Submit ({| start := 0; stop := 2896 |}, {| start := 0; stop := 2896 |});
   Submit ({| start := 0; stop := 2896 |}, {| start := 2896; stop := 4096 |});
   Submit ({| start := 2896; stop := 4096 |}, {| start := 0; stop := 2896 |});
   Submit ({| start := 2896; stop := 4096 |}, {| start := 2896; stop := 4096 |})].
Proof.
  exact (proj1 (download_band_submits_every_tile (Fixtures.world_failing "https://ee/0,0")
                  10 (Fixtures.ready (4096, 4096)) (Fixtures.scaled_band_of (4096, 4096))
                  [Fixtures.tile_of (4096, 4096) 0 2896 0 2896;
                   Fixtures.tile_of (4096, 4096) 0 2896 2896 4096;
                   Fixtures.tile_of (4096, 4096) 2896 4096 0 2896;
                   Fixtures.tile_of (4096, 4096) 2896 4096 2896 4096]
                  eq_refl ltac:(cbn; lia) ltac:(vm_compute; reflexivity))).
Defined.

(** X22. A pool without workers is refused: when [max_workers] is not positive,
    [_download_band] stores the tile list, prints their number and raises
    [ValueError] where it makes the executor; no task is submitted. *)
Theorem download_band_refuses_empty_pool w fuel st bi ts :
  band_info (fst st) = Some bi ->
  max_workers (fst st) <= 0 ->
  fst (_create_tiles w fuel default_max_size st) = Return (Some ts) ->
  fst (_download_band w fuel st) =
    Raise (ValueError "max_workers must be greater than 0") /\
  snd (snd (_download_band w fuel st)) =
    snd st ++ [Print ("Dividing band in " ++ str (Z.of_nat (length ts)) ++ " tiles")] /\
  tiles (fst (snd (_download_band w fuel st))) = Some ts.
Proof.
  intros Hbi Hpool Htiles.
  assert (Hrun : _download_band w fuel st =
                 (Raise (ValueError "max_workers must be greater than 0"),
                  ({| img := img (fst st); band := band (fst st);
                      band_info := band_info (fst st); array := array (fst st);
                      tiles := Some ts; max_workers := max_workers (fst st) |},
                   snd st ++
                   [Print ("Dividing band in " ++ str (Z.of_nat (length ts)) ++ " tiles")]))).
  { unfold _download_band.
    unfold bind at 1. unfold get_state at 1. rewrite Hbi.
    pose proof (create_tiles_keeps_state w fuel default_max_size st bi Hbi) as Hkeep.
    unfold bind at 1.
    destruct (_create_tiles w fuel default_max_size st) as [o st1].
    cbn [fst snd] in Htiles, Hkeep. subst o st1.
    unfold bind at 1. unfold set_tiles at 1. unfold modify at 1.
    unfold bind at 1. unfold emit at 1. unfold modify at 1.
    unfold bind at 1. unfold get_state at 1. cbn [fst snd].
    unfold bind at 1. unfold lift at 1. cbn [max_workers].
    unfold futures.ThreadPoolExecutor.
    destruct (Z.leb_spec (max_workers (fst st)) 0); [|lia].
    rewrite ?Hbi. reflexivity. }
  rewrite Hrun. cbn [fst snd tiles]. repeat split.
Qed.

(** A downloader made with [max_workers=0]: the band of 4096 x 4096 pixels
    is divided in four tiles and none is fetched. *)
Lemma download_band_refuses_empty_pool_witness :
  fst (_download_band Fixtures.world 10 (Fixtures.ready_without_workers (4096, 4096))) =
    Raise (ValueError "max_workers must be greater than 0") /\
  snd (snd (_download_band Fixtures.world 10 (Fixtures.ready_without_workers (4096, 4096))))
    = [Print "Dividing band in 4 tiles"].
Proof.
  destruct (download_band_refuses_empty_pool Fixtures.world 10
              (Fixtures.ready_without_workers (4096, 4096))
              (Fixtures.scaled_band_of (4096, 4096))
              [Fixtures.tile_of (4096, 4096) 0 2896 0 2896;
               Fixtures.tile_of (4096, 4096) 0 2896 2896 4096;
               Fixtures.tile_of (4096, 4096) 2896 4096 0 2896;
               Fixtures.tile_of (4096, 4096) 2896 4096 2896 4096]
              eq_refl ltac:(cbn; lia) ltac:(vm_compute; reflexivity))
    as (Hout & Hconsole & _).
  split; [exact Hout | exact Hconsole].
Defined.

(** ** [rm_tree] *)

(** Induction on a file tree, the entries of a directory included. *)
Lemma node_nested_ind (P : common.node -> Prop) :
  P common.File -> P common.Special ->
  (forall entries, Forall P entries -> P (common.Dir entries)) ->
  forall n, P n.
Proof.
  intros HFile HSpecial HDir.
  fix IH 1. intros [| |entries]; [exact HFile | exact HSpecial |].
  apply HDir. induction entries as [|child entries IHentries]; constructor.
  - apply IH.
  - exact IHentries.
Qed.

Lemma rm_children_spec entries :
  Forall rm_tree_spec entries ->
  let ok := forallb (fun child => match child with
                                  | common.File => true
                                  | _ => removable child
                                  end) entries in
  (ok = true -> common.rm_children common.rm_tree entries = (Return tt, [])) /\
  (ok = false ->
   fst (common.rm_children common.rm_tree entries) = Raise (External "NotADirectoryError") /\
   snd (common.rm_children common.rm_tree entries) <> []).
Proof.
  induction entries as [|child entries IH]; intros Hall; cbv zeta.
  - split; [reflexivity | discriminate].
  - inversion Hall as [|? ? [Hyes Hno] Hrest]; subst.
    specialize (IH Hrest). cbv zeta in IH. destruct IH as [IHyes IHno].
    cbn [forallb].
    destruct child as [| |sub].
    + cbn [common.rm_children andb]. split; assumption.
    + cbn [removable andb]. split; [discriminate|]. intros _.
      cbn [common.rm_children common.rm_tree common.keep fst snd].
      split; [reflexivity | discriminate].
    + change (common.rm_children common.rm_tree (common.Dir sub :: entries))
        with (match common.rm_tree (common.Dir sub) with
              | (Return _, remains) =>
                  let '(o, rest') := common.rm_children common.rm_tree entries in
                  (o, common.keep remains rest')
              | (o, remains) => (o, common.keep remains entries)
              end).
      destruct (removable (common.Dir sub)) eqn:Hsub.
      * rewrite (Hyes eq_refl). cbn [andb common.keep].
        destruct (common.rm_children common.rm_tree entries) as [o rest'].
        cbn [fst snd] in *. split.
        -- intros Hok. specialize (IHyes Hok). injection IHyes as -> ->. reflexivity.
        -- intros Hok. exact (IHno Hok).
      * destruct (Hno eq_refl) as [Hraise [remains Hremains]].
        destruct (common.rm_tree (common.Dir sub)) as [o remains'].
        cbn [fst snd] in Hraise, Hremains. subst o remains'.
        cbn [andb common.keep fst snd]. split; [discriminate|].
        intros _. split; [reflexivity | discriminate].
Qed.

Lemma rm_tree_spec_all n : rm_tree_spec n.
Proof.
  induction n as [| |entries IH] using node_nested_ind.
  - split; [discriminate|]. intros _. split; [reflexivity | eexists; reflexivity].
  - split; [discriminate|]. intros _. split; [reflexivity | eexists; reflexivity].
  - destruct (rm_children_spec entries IH) as [Hyes Hno]. cbv zeta in Hyes, Hno.
    unfold rm_tree_spec. cbn [removable common.rm_tree]. split.
    + intros Hok. rewrite (Hyes Hok). reflexivity.
    + intros Hok. destruct (Hno Hok) as [Hraise Hleft].
      destruct (common.rm_children common.rm_tree entries) as [o remains].
      cbn [fst snd] in Hraise, Hleft. subst o.
      split; [reflexivity | eexists; reflexivity].
Qed.

(** X18. On a directory that holds nothing but regular files and directories
    of the same kind, however deep, [rm_tree] returns and nothing is left at
    the path. *)
Theorem rm_tree_removes_plain_directory n :
  removable n = true -> common.rm_tree n = (Return tt, None).
Proof. exact (proj1 (rm_tree_spec_all n)). Qed.

(** X19. On anything else (a regular file, an entry that is neither a file
    nor a directory, or a directory that holds such an entry at any depth)
    [rm_tree] raises [NotADirectoryError] from [rmdir] and something is left
    at the path; it never fails on a directory that is not empty. *)
Theorem rm_tree_refuses_other_entries n :
  removable n = false ->
  fst (common.rm_tree n) = Raise (External "NotADirectoryError") /\
  exists remains, snd (common.rm_tree n) = Some remains.
Proof. exact (proj2 (rm_tree_spec_all n)). Qed.

(** A directory with two files and a sub-directory that holds a file and an
    empty directory. *)
Lemma rm_tree_removes_plain_directory_witness :
  common.rm_tree
    (common.Dir [common.File; common.Dir [common.File; common.Dir []]; common.File]) =
  (Return tt, None).
Proof.
  exact (rm_tree_removes_plain_directory
           (common.Dir [common.File; common.Dir [common.File; common.Dir []]; common.File])
           eq_refl).
Defined.

(** A file, then a directory that holds a fifo, then a file: the call
    raises. *)
Lemma rm_tree_refuses_other_entries_witness :
  fst (common.rm_tree
         (common.Dir [common.File; common.Dir [common.Special]; common.File])) =
  Raise (External "NotADirectoryError").
Proof.
  exact (proj1 (rm_tree_refuses_other_entries
                  (common.Dir [common.File; common.Dir [common.Special]; common.File])
                  eq_refl)).
Defined.

(** ** [plot_tiling] *)

Lemma paint_shape ts : forall arr i, np.shape (paint arr i ts) = np.shape arr.
Proof.
  induction ts as [|t ts IH]; intros arr i; [reflexivity|].
  cbn [paint]. rewrite IH. reflexivity.
Qed.

Lemma paint_untouched y x ts : forall arr i,
  covering ts y x = 0%nat -> np.item (paint arr i ts) y x = np.item arr y x.
Proof.
  induction ts as [|t ts IH]; intros arr i Hcov; [reflexivity|].
  cbn [covering] in Hcov. destruct (covers t y x) eqn:Hcovers; [lia|].
  cbn [paint]. rewrite IH by lia.
  unfold np.fill_uint8, np.in_slice, Tile.slices. cbn [np.item np.shape fst snd].
  unfold covers in Hcovers. revert Hcovers. zbool; discriminate.
Qed.

Lemma paint_pixel y x ts : forall arr i k t,
  0 <= y < fst (np.shape arr) -> 0 <= x < snd (np.shape arr) ->
  covering ts y x = 1%nat ->
  nth_error ts k = Some t -> covers t y x = true ->
  np.item (paint arr i ts) y x = np.uint8 (i + Z.of_nat k).
Proof.
  induction ts as [|t0 ts IH]; intros arr i k t Hy Hx Hone Hnth Hcov;
    [destruct k; discriminate|].
  cbn [covering] in Hone. cbn [paint].
  destruct (covers t0 y x) eqn:Hcov0.
  - assert (Hzero : covering ts y x = 0%nat) by lia.
    destruct k as [|k].
    + rewrite paint_untouched by exact Hzero.
      unfold np.fill_uint8, np.in_slice, Tile.slices. cbn [np.item np.shape fst snd].
      rewrite Z.add_0_r.
      unfold covers in Hcov0. revert Hcov0. zbool; discriminate.
    + cbn [nth_error] in Hnth. apply nth_error_In in Hnth.
      pose proof (covering_ge t ts y x Hnth Hcov). lia.
  - destruct k as [|k].
    + cbn [nth_error] in Hnth. injection Hnth as <-. congruence.
    + cbn [nth_error] in Hnth.
      rewrite (IH _ (i + 1) k t); try assumption; try lia.
      f_equal. lia.
Qed.

(** X20. On a downloader whose tiles are a partition of the grid,
    [plot_tiling] shows an array of the dimensions of the band in which
    every pixel holds the rank of its tile in the tile list, modulo 256 (the
    array is of type uint8): tiles whose ranks differ by 256 get the same
    value. *)
Theorem plot_tiling_paints_rank_of_tile self bi ts :
  band_info self = Some bi ->
  tiles self = Some ts ->
  partition (dimensions bi) ts ->
  exists arr,
    plot_tiling self = Return arr /\
    np.shape arr = dimensions bi /\
    forall k t y x,
      nth_error ts k = Some t -> covers t y x = true ->
      np.item arr y x = Z.of_nat k mod 256.
Proof.
  intros Hbi Htiles [Hwithin Hone].
  exists (paint (np.zeros (dimensions bi)) 0 ts).
  unfold plot_tiling. rewrite Hbi, Htiles.
  split; [reflexivity|]. split; [apply paint_shape|].
  intros k t y x Hnth Hcov.
  assert (Hgrid : 0 <= y < fst (dimensions bi) /\ 0 <= x < snd (dimensions bi)).
  { rewrite List.Forall_forall in Hwithin.
    specialize (Hwithin t (nth_error_In _ _ Hnth)).
    unfold within in Hwithin. unfold covers in Hcov. revert Hcov. zbool; discriminate. }
  rewrite (paint_pixel y x ts _ 0 k t); try assumption; try apply Hgrid.
  - reflexivity.
  - apply Hone; apply Hgrid.
Qed.

(** The four tiles of a band of 4096 x 4096 pixels: the pixel (3000, 100)
    lies in the third tile and is painted 2. *)
Lemma plot_tiling_paints_rank_of_tile_witness :
  exists arr,
    plot_tiling
      {| img := None; band := None;
         band_info := Some (Fixtures.scaled_band_of (4096, 4096));
         array := None;
         tiles := Some [Fixtures.tile_of (4096, 4096) 0 2896 0 2896;
                        Fixtures.tile_of (4096, 4096) 0 2896 2896 4096;
                        Fixtures.tile_of (4096, 4096) 2896 4096 0 2896;
                        Fixtures.tile_of (4096, 4096) 2896 4096 2896 4096];
         max_workers := 5 |} = Return arr /\
    np.item arr 3000 100 = 2.
Proof.
  destruct (plot_tiling_paints_rank_of_tile
              {| img := None; band := None;
                 band_info := Some (Fixtures.scaled_band_of (4096, 4096));
                 array := None;
                 tiles := Some [Fixtures.tile_of (4096, 4096) 0 2896 0 2896;
                                Fixtures.tile_of (4096, 4096) 0 2896 2896 4096;
                                Fixtures.tile_of (4096, 4096) 2896 4096 0 2896;
                                Fixtures.tile_of (4096, 4096) 2896 4096 2896 4096];
                 max_workers := 5 |}
              (Fixtures.scaled_band_of (4096, 4096)) _ eq_refl eq_refl four_tiles_partition)
    as (arr & Hrun & _ & Hpixel).
  exists arr. split; [exact Hrun|].
  exact (Hpixel 2%nat (Fixtures.tile_of (4096, 4096) 2896 4096 0 2896) 3000 100
           eq_refl eq_refl).
Defined.
